(** * The IPv6-suppression source decorator of external-dns

    A shallow embedding of [source/suppress_ipv6.go] and of the node
    source exercised by [source/node_test.go], with the properties the
    specification states about them. *)

From Stdlib Require Import ZArith String Ascii Lia.
From stdpp Require Import base option list gmap strings.

(** ** Go's [net] package: textual IP addresses

    [getIp4Targets] decides with [net.ParseIP] and [IP.To4].  Both belong to
    the Go standard library; they are transcribed here loop by loop from
    [net/ip.go] and [net/parse.go].  An [IP] is a byte slice: a [list Z] of
    bytes, with [None] for the nil slice. *)
Module Net.

Local Open Scope Z_scope.

Definition IPv4len : nat := 4.
Definition IPv6len : Z := 16.

(** [const big = 0xFFFFFF]: bigger than anything the parsers need. *)
Definition big : Z := 0xFFFFFF.

Definition byte_val (c : ascii) : Z := Z.of_N (N_of_ascii c).

Definition between (lo hi c : ascii) : bool :=
  (byte_val lo <=? byte_val c) && (byte_val c <=? byte_val hi).

(** [s[n:]] *)
Fixpoint sdrop (n : nat) (s : string) : string :=
  match n, s with
  | O, _ => s
  | S n', String _ s' => sdrop n' s'
  | S _, EmptyString => EmptyString
  end.

(** [i < len(s) && s[i] == c] *)
Definition char_at_is (s : string) (i : nat) (c : ascii) : bool :=
  match String.get i s with
  | Some d => Ascii.eqb d c
  | None => false
  end.

(** [dtoi]: decimal to integer; returns number, characters consumed,
    success. *)
Fixpoint dtoi_loop (s : string) (n : Z) (i : nat) : Z * nat * bool :=
  match s with
  | String c s' =>
      if between "0" "9" c then
        let n' := n * 10 + (byte_val c - byte_val "0") in
        if big <=? n' then (big, i, false) else dtoi_loop s' n' (S i)
      else if (i =? 0)%nat then (0, 0%nat, false) else (n, i, true)
  | EmptyString => if (i =? 0)%nat then (0, 0%nat, false) else (n, i, true)
  end.

Definition dtoi (s : string) : Z * nat * bool := dtoi_loop s 0 0%nat.

(** [xtoi]: hexadecimal to integer. *)
Fixpoint xtoi_loop (s : string) (n : Z) (i : nat) : Z * nat * bool :=
  let stop := if (i =? 0)%nat then (0, i, false) else (n, i, true) in
  match s with
  | String c s' =>
      let step (n' : Z) :=
        if big <=? n' then (0, i, false) else xtoi_loop s' n' (S i) in
      if between "0" "9" c then step (n * 16 + (byte_val c - byte_val "0"))
      else if between "a" "f" c then
        step (n * 16 + (byte_val c - byte_val "a" + 10))
      else if between "A" "F" c then
        step (n * 16 + (byte_val c - byte_val "A" + 10))
      else stop
  | EmptyString => stop
  end.

Definition xtoi (s : string) : Z * nat * bool := xtoi_loop s 0 0%nat.

Definition v4InV6Prefix : list Z := [0; 0; 0; 0; 0; 0; 0; 0; 0; 0; 0xff; 0xff].

(** [IPv4(a, b, c, d)]: the 16-byte form of the IPv4 address a.b.c.d. *)
Definition IPv4 (a b c d : Z) : list Z := v4InV6Prefix ++ [a; b; c; d].

(** The loop of [parseIPv4]: [k] iterations remain, [i] is the octet
    index, [p] the array filled so far.  [None] is [return nil]. *)
Fixpoint parseIPv4_loop (k i : nat) (s : string) (p : list Z)
  : option (list Z * string) :=
  match k with
  | O => Some (p, s)
  | S k' =>
      if (String.length s =? 0)%nat then None
      else
        let after_dot :=
          if (0 <? i)%nat then
            if char_at_is s 0 "." then Some (sdrop 1 s) else None
          else Some s in
        match after_dot with
        | None => None
        | Some s1 =>
            let '(n, c, ok) := dtoi s1 in
            if negb ok || (0xFF <? n) then None
            else if (1 <? c)%nat && char_at_is s1 0 "0" then None
            else parseIPv4_loop k' (S i) (sdrop c s1) (<[i := n mod 256]> p)
        end
  end.

Definition parseIPv4 (s : string) : option (list Z) :=
  match parseIPv4_loop IPv4len 0 s [0; 0; 0; 0] with
  | Some ([a; b; c; d], rest) =>
      if (String.length rest =? 0)%nat then Some (IPv4 a b c d) else None
  | _ => None
  end.

(** [ip[i]] on an index known to be in range; out of range Go panics,
    which no call below can reach. *)
Definition at_ (ip : list Z) (i : Z) : Z := ip !!! Z.to_nat i.
Definition set_ (ip : list Z) (i : Z) (b : Z) : list Z := <[Z.to_nat i := b]> ip.

(** State of the main loop of [parseIPv6] when it is left. *)
Record v6state := V6 { v6_i : Z; v6_s : string; v6_ellipsis : Z; v6_ip : list Z }.

(** The loop [for i < IPv6len { ... }] of [parseIPv6].  [None] is
    [return nil]; [Some st] is the state at [break] or when the loop
    condition fails.  Every iteration that continues adds 2 to [i], so
    eight units of fuel always suffice ([parseIPv6_loop_fuel] below). *)
Fixpoint parseIPv6_loop (fuel : nat) (i : Z) (s : string) (ellipsis : Z)
  (ip : list Z) : option v6state :=
  if negb (i <? IPv6len) then Some (V6 i s ellipsis ip)
  else
    match fuel with
    | O => Some (V6 i s ellipsis ip)
    | S fuel' =>
        let '(n, c, ok) := xtoi s in
        if negb ok || (0xFFFF <? n) then None
        else if char_at_is s c "." then
          (* trailing IPv4 *)
          if (ellipsis <? 0) && negb (i =? IPv6len - Z.of_nat IPv4len) then None
          else if IPv6len <? i + Z.of_nat IPv4len then None
          else
            match parseIPv4 s with
            | None => None
            | Some ip4 =>
                let ip := set_ ip i (at_ ip4 12) in
                let ip := set_ ip (i + 1) (at_ ip4 13) in
                let ip := set_ ip (i + 2) (at_ ip4 14) in
                let ip := set_ ip (i + 3) (at_ ip4 15) in
                Some (V6 (i + Z.of_nat IPv4len) EmptyString ellipsis ip)
            end
        else
          let ip := set_ ip i (Z.shiftr n 8 mod 256) in
          let ip := set_ ip (i + 1) (n mod 256) in
          let i := i + 2 in
          let s := sdrop c s in
          if (String.length s =? 0)%nat then Some (V6 i s ellipsis ip)
          else if negb (char_at_is s 0 ":") || (String.length s =? 1)%nat
          then None
          else
            let s := sdrop 1 s in
            if char_at_is s 0 ":" then
              if 0 <=? ellipsis then None
              else
                let ellipsis := i in
                let s := sdrop 1 s in
                if (String.length s =? 0)%nat then Some (V6 i s ellipsis ip)
                else parseIPv6_loop fuel' i s ellipsis ip
            else parseIPv6_loop fuel' i s ellipsis ip
    end.

(** [for j := from; j >= ellipsis; j-- { ip = f j ip }], [k] iterations. *)
Fixpoint down_loop (k : nat) (j : Z) (f : Z -> list Z -> list Z) (ip : list Z)
  : list Z :=
  match k with
  | O => ip
  | S k' => down_loop k' (j - 1) f (f j ip)
  end.

Definition down_from (from lo : Z) (f : Z -> list Z -> list Z) (ip : list Z)
  : list Z :=
  down_loop (Z.to_nat (from - lo + 1)) from f ip.

Definition parseIPv6 (s : string) : option (list Z) :=
  let ip := replicate (Z.to_nat IPv6len) 0 in
  let lead := char_at_is s 0 ":" && char_at_is s 1 ":" in
  let ellipsis := if lead then 0 else -1 in
  let s := if lead then sdrop 2 s else s in
  if lead && (String.length s =? 0)%nat then Some ip
  else
    match parseIPv6_loop 8 0 s ellipsis ip with
    | None => None
    | Some (V6 i s ellipsis ip) =>
        if negb (String.length s =? 0)%nat then None
        else if i <? IPv6len then
          if ellipsis <? 0 then None
          else
            let n := IPv6len - i in
            let ip := down_from (i - 1) ellipsis
                        (fun j ip => set_ ip (j + n) (at_ ip j)) ip in
            let ip := down_from (ellipsis + n - 1) ellipsis
                        (fun j ip => set_ ip j 0) ip in
            Some ip
        else if 0 <=? ellipsis then None
        else Some ip
    end.

(** [ParseIP]: the first '.' or ':' decides which parser runs. *)
Fixpoint ParseIP_scan (rest s : string) : option (list Z) :=
  match rest with
  | EmptyString => None
  | String c rest' =>
      if Ascii.eqb c "." then parseIPv4 s
      else if Ascii.eqb c ":" then parseIPv6 s
      else ParseIP_scan rest' s
  end.

Definition ParseIP (s : string) : option (list Z) := ParseIP_scan s s.

Definition isZeros (p : list Z) : bool := forallb (Z.eqb 0) p.

(** [ip.To4()]: the 4-byte form of an IPv4 address, nil otherwise. *)
Definition To4 (ip : list Z) : option (list Z) :=
  if (length ip =? IPv4len)%nat then Some ip
  else if (length ip =? Z.to_nat IPv6len)%nat
            && isZeros (take 10 ip)
            && (at_ ip 10 =? 0xff) && (at_ ip 11 =? 0xff)
  then Some (take 4 (drop 12 ip))
  else None.

End Net.

(** ** Package [endpoint] *)
Module endpoint.

(** Modelled from the spec: the [TTL] type of package [endpoint], which is
    not under src/.  Section 3 of the specification gives it as a signed
    integer with an explicit "configured" flag; unconfigured is value 0
    with the flag false. *)
Record TTL := mkTTL { ttl_value : Z; ttl_configured : bool }.

Definition ttl_unconfigured : TTL := mkTTL 0 false.

(** Modelled from the spec: the [Endpoint] struct of package [endpoint],
    which is not under src/: the five fields of section 3.  [Targets] is
    the named slice type [endpoint.Targets]; [RecordType] is written as a
    string literal by the tests. *)
Record Endpoint := mkEndpoint {
  DNSName : string;
  Targets : list string;
  RecordType : string;
  RecordTTL : TTL;
  Labels : gmap string string
}.

(** [e.Targets = targets] on a struct value. *)
Definition set_Targets (targets : list string) (e : Endpoint) : Endpoint :=
  {| DNSName := DNSName e; Targets := targets; RecordType := RecordType e;
     RecordTTL := RecordTTL e; Labels := Labels e |}.

End endpoint.

(** ** Package [source]: the [Source] interface and the decorator *)
Module source.
Import endpoint.

(** [*endpoint.Endpoint]: an address in the store of endpoint structs.  The
    nil pointer is an address outside the store; dereferencing it
    panics. *)
Abbreviation loc := positive.

(** [getIp4Targets].  The [log.Debugf] calls write to the process logger
    and influence neither the returned value nor the store; they are left
    out throughout. *)
Definition isIPv4 (target : string) : bool :=
  match Net.ParseIP target with
  | Some ip => bool_decide (is_Some (Net.To4 ip))   (* ip != nil && ip.To4() != nil *)
  | None => false
  end.

Definition getIp4Targets (targets : list string) : list string :=
  fold_left
    (fun result target => if isIPv4 target then result ++ [target] else result)
    targets [].

Section Source.
(** [context.Context], the callback type [func()], the values of the
    [error] interface, and whatever state the wrapped sources keep
    besides endpoint structs (informer caches, registrations). *)
Context {Ctx Handler Err W : Type}.

Record State := mkState { heap : gmap loc Endpoint; world : W }.

(** Go code running on the state; [None] is a panic. *)
Definition M (A : Type) : Type := State -> option (A * State).

Definition ret {A} (a : A) : M A := fun st => Some (a, st).

Definition bind {A B} (m : M A) (k : A -> M B) : M B :=
  fun st => match m st with
            | Some (a, st') => k a st'
            | None => None
            end.

(** [*p] *)
Definition load (p : loc) : M Endpoint :=
  fun st => match heap st !! p with
            | Some e => Some (e, st)
            | None => None
            end.

(** A new variable initialised with [e] whose address is taken. *)
Definition new (e : Endpoint) : M loc :=
  fun st => let p := fresh (dom (heap st)) in
            Some (p, mkState (<[p := e]> (heap st)) (world st)).

(** [p.f = v] through the address of a variable. *)
Definition modify (p : loc) (f : Endpoint -> Endpoint) : M unit :=
  fun st => match heap st !! p with
            | Some e => Some (tt, mkState (<[p := f e]> (heap st)) (world st))
            | None => None
            end.

(** The [Source] interface, as its method table.  A nil interface value
    behaves as the table whose methods panic ([nilSource]). *)
Record Source := mkSource {
  Endpoints : Ctx -> M (list loc * option Err);
  AddEventHandler : Ctx -> Handler -> M unit
}.

Definition nilSource : Source :=
  {| Endpoints := fun _ _ => None; AddEventHandler := fun _ _ _ => None |}.

Record suppressIPv6Source := mkSuppress { unfiltered : Source }.

(** The [for _, endpoint := range endpoints] loop of [Endpoints]. *)
Fixpoint suppress_loop (endpoints results : list loc) : M (list loc) :=
  match endpoints with
  | [] => ret results
  | endpoint :: rest =>
      bind (load endpoint) (fun e =>
      let targets := getIp4Targets (Targets e) in
      if (0 <? length targets)%nat then
        bind (new e) (fun endpointCopy =>
        bind (modify endpointCopy (set_Targets targets)) (fun _ =>
        suppress_loop rest (results ++ [endpointCopy])))
      else suppress_loop rest results)
  end.

Definition suppressIPv6Source_Endpoints (s : suppressIPv6Source) (ctx : Ctx)
  : M (list loc * option Err) :=
  bind (Endpoints (unfiltered s) ctx) (fun '(endpoints, err) =>
  match err with
  | Some _ => ret (endpoints, err)
  | None =>
      bind (suppress_loop endpoints []) (fun results => ret (results, None))
  end).

Definition suppressIPv6Source_AddEventHandler (s : suppressIPv6Source)
  (ctx : Ctx) (f : Handler) : M unit :=
  AddEventHandler (unfiltered s) ctx f.

(** [*suppressIPv6Source] seen through the [Source] interface. *)
Definition asSource (s : suppressIPv6Source) : Source :=
  {| Endpoints := suppressIPv6Source_Endpoints s;
     AddEventHandler := suppressIPv6Source_AddEventHandler s |}.

Definition NewSuppressIPv6Source (original : Source) : Source :=
  asSource {| unfiltered := original |}.

(** The endpoint structs a slice of pointers refers to ([None] when one
    of them cannot be dereferenced). *)
Definition deref_all (st : State) (ps : list loc) : option (list Endpoint) :=
  mapM (fun p => heap st !! p) ps.

End Source.

Arguments State : clear implicits.
Arguments M : clear implicits.
Arguments Source : clear implicits.
Arguments suppressIPv6Source : clear implicits.

End source.

(** ** The node source

    [source/node.go] is not under src/; its test file is.  The producer is
    modelled from section 4.2 of the specification and checked against the
    table of [testNodeSourceEndpoints]. *)
Module node.
Import endpoint source.

(** Address types of [k8s.io/api/core/v1]. *)
Inductive NodeAddressType :=
| NodeHostName | NodeInternalIP | NodeExternalIP | NodeInternalDNS | NodeExternalDNS.

#[global] Instance NodeAddressType_eq_dec : EqDecision NodeAddressType.
Proof. solve_decision. Defined.

Record NodeAddress := mkAddr { Type_ : NodeAddressType; Address : string }.

(** [v1.Node] as the tests build it; [NodeLabels] may be the nil map. *)
Record Node := mkNode {
  Name : string;
  NodeLabels : option (gmap string string);
  Annotations : gmap string string;
  Addresses : list NodeAddress
}.

(** Modelled from the spec: the reserved annotation keys of section 6,
    whose declarations are not under src/. *)
Class Reserved := {
  controllerAnnotationKey : string;
  controllerAnnotationValue : string;
  ttlAnnotationKey : string
}.

(** Modelled from the spec: the template engine behind section 4.4 (Go's
    [text/template]): parsing may fail, expansion over the identity
    fields Name and Namespace is a pure total function. *)
Class TemplateEngine := {
  Template : Type;
  parseTemplate : string -> option Template;
  execTemplate : Template -> string -> string -> string
}.

(** Modelled from the spec: the predicate language of section 4.3, in
    the parsed form section 9 asks for; a selector is the conjunction of
    its requirements and the empty selector matches everything.  The
    concrete syntax of filter expressions is not specified and not
    modelled. *)
Inductive Requirement :=
| Equals (key value : string)
| InSet (key : string) (values : list string)
| Exists (key : string).

Definition Selector := list Requirement.

Definition holds (m : gmap string string) (r : Requirement) : bool :=
  match r with
  | Equals k v => bool_decide (m !! k = Some v)
  | InSet k vs => match m !! k with
                  | Some v => bool_decide (v ∈ vs)
                  | None => false
                  end
  | Exists k => bool_decide (is_Some (m !! k))
  end.

Definition Matches (sel : Selector) (m : gmap string string) : bool :=
  forallb (holds m) sel.

(** Modelled from the spec: the error taxonomy of section 7. *)
Inductive Error {Upstream : Type} :=
| ConfigurationError (template : string)
| AddressUnavailableError (node : string)
| UpstreamError (e : Upstream).
Arguments Error : clear implicits.

Section Producer.
Context {reserved : Reserved} {engine : TemplateEngine} {Upstream : Type}.

Record nodeSource := mkNodeSource {
  annotationFilter : Selector;
  fqdnTemplate : option Template;
  labelSelector : Selector
}.

(** Modelled from the spec: the node-producer constructor of section 6;
    "if a name template was configured" is read as a non-empty
    template string. *)
Definition NewNodeSource (annotationFilter : Selector) (fqdnTemplate : string)
  (labelSelector : Selector) : Error Upstream + nodeSource :=
  if bool_decide (fqdnTemplate = EmptyString) then
    inr (mkNodeSource annotationFilter None labelSelector)
  else
    match parseTemplate fqdnTemplate with
    | Some t => inr (mkNodeSource annotationFilter (Some t) labelSelector)
    | None => inl (ConfigurationError fqdnTemplate)
    end.

(** Modelled from the spec: step 1 of section 4.2. *)
Definition owned (node : Node) : bool :=
  match Annotations node !! controllerAnnotationKey with
  | Some v => bool_decide (v = controllerAnnotationValue)
  | None => true
  end.

(** Modelled from the spec: step 5 of section 4.2. *)
Definition addressesOfType (t : NodeAddressType) (addrs : list NodeAddress)
  : list string :=
  Address <$> filter (fun a => Type_ a = t) addrs.

Definition nodeAddresses (node : Node) : option (list string) :=
  let external := addressesOfType NodeExternalIP (Addresses node) in
  if (0 <? length external)%nat then Some external
  else
    let internal := addressesOfType NodeInternalIP (Addresses node) in
    if (0 <? length internal)%nat then Some internal else None.

(** Modelled from the spec: step 6 of section 4.2; a non-negative
    integer is a non-empty string of decimal digits. *)
Fixpoint parseDigits (s : string) (acc : Z) : option Z :=
  match s with
  | EmptyString => Some acc
  | String c s' =>
      if Net.between "0" "9" c then
        parseDigits s' (acc * 10 + (Net.byte_val c - Net.byte_val "0"))%Z
      else None
  end.

Definition parseNonNegative (s : string) : option Z :=
  match s with
  | EmptyString => None
  | _ => parseDigits s 0
  end.

Definition getTTLFromAnnotations (annotations : gmap string string) : TTL :=
  match annotations !! ttlAnnotationKey with
  | Some v => match parseNonNegative v with
              | Some n => mkTTL n true
              | None => ttl_unconfigured
              end
  | None => ttl_unconfigured
  end.

(** Modelled from the spec: the per-node algorithm of section 4.2, its
    seven steps in order.  [inr None] skips the node, [inl] fails the
    call. *)
Definition nodeEndpoint (ns : nodeSource) (node : Node)
  : Error Upstream + option Endpoint :=
  if negb (owned node) then inr None
  else if negb (Matches (annotationFilter ns) (Annotations node)) then inr None
  else if negb (Matches (labelSelector ns) (default ∅ (NodeLabels node))) then inr None
  else
    let name := match fqdnTemplate ns with
                | Some t => execTemplate t (Name node) EmptyString
                | None => Name node
                end in
    match nodeAddresses node with
    | None => inl (AddressUnavailableError (Name node))
    | Some targets =>
        let ttl := getTTLFromAnnotations (Annotations node) in
        inr (Some {| DNSName := name; Targets := targets; RecordType := "A";
                     RecordTTL := ttl;
                     Labels := default ∅ (NodeLabels node) |})
    end.

(** The node is not skipped by steps 1 to 3. *)
Definition processed (ns : nodeSource) (node : Node) : bool :=
  owned node
  && Matches (annotationFilter ns) (Annotations node)
  && Matches (labelSelector ns) (default ∅ (NodeLabels node)).

Fixpoint endpointsOfNodes (ns : nodeSource) (nodes : list Node)
  : Error Upstream + list Endpoint :=
  match nodes with
  | [] => inr []
  | node :: rest =>
      match nodeEndpoint ns node with
      | inl err => inl err
      | inr ep =>
          match endpointsOfNodes ns rest with
          | inl err => inl err
          | inr eps => inr (option_list ep ++ eps)
          end
      end
  end.

(** Modelled from the spec: [Endpoints] of the producer on the outcome
    of the read of the external node cache. *)
Definition nodeSource_Endpoints (ns : nodeSource) (listing : Upstream + list Node)
  : Error Upstream + list Endpoint :=
  match listing with
  | inl e => inl (UpstreamError e)
  | inr nodes => endpointsOfNodes ns nodes
  end.

(** The producer as a [Source]: the world holds the outcome the cache
    read has at call time and the registration list of section 9. *)
Context {Ctx Handler : Type}.

Record NodeWorld := mkWorld {
  cache : Upstream + list Node;
  registrations : list Handler
}.

Fixpoint new_all (eps : list Endpoint)
  : M NodeWorld (list loc) :=
  match eps with
  | [] => ret []
  | e :: rest =>
      bind (new e) (fun p => bind (new_all rest) (fun ps => ret (p :: ps)))
  end.

Definition nodeSource_asSource (ns : nodeSource)
  : Source Ctx Handler (Error Upstream) NodeWorld :=
  {| Endpoints := fun _ st =>
       match nodeSource_Endpoints ns (cache (world st)) with
       | inl err => Some (([], Some err), st)
       | inr eps => bind (new_all eps) (fun ps => ret (ps, None)) st
       end;
     AddEventHandler := fun _ f st =>
       Some (tt, mkState (heap st)
                   (mkWorld (cache (world st)) (registrations (world st) ++ [f]))) |}.

End Producer.

Arguments nodeSource {_}.
Arguments NodeWorld : clear implicits.

(** The field-substitution fragment of the template language: literal
    text and the actions [{{.Name}}] and [{{.Namespace}}]; any other
    [{{] is rejected.  It instantiates the engine for the templates the
    tests use. *)
Inductive Segment := Text (c : ascii) | FieldName | FieldNamespace.

Fixpoint parseFragment (skip : nat) (s : string) : option (list Segment) :=
  match s with
  | EmptyString => Some []
  | String c s' =>
      match skip with
      | S k => parseFragment k s'
      | O =>
          if String.prefix "{{.Name}}" s then cons FieldName <$> parseFragment 8 s'
          else if String.prefix "{{.Namespace}}" s then
            cons FieldNamespace <$> parseFragment 13 s'
          else if String.prefix "{{" s then None
          else cons (Text c) <$> parseFragment 0 s'
      end
  end.

Definition execFragment (t : list Segment) (name namespace : string) : string :=
  foldr (fun seg out => match seg with
                        | Text c => String c out
                        | FieldName => name ++ out
                        | FieldNamespace => namespace ++ out
                        end)%string EmptyString t.

Definition fragmentEngine : TemplateEngine :=
  {| Template := list Segment; parseTemplate := parseFragment 0;
     execTemplate := execFragment |}.

(** The values the keys have upstream; the tests only need the ownership
    value to differ from "not-dns-controller". *)
Definition upstreamReserved : Reserved :=
  {| controllerAnnotationKey := "external-dns.alpha.kubernetes.io/controller";
     controllerAnnotationValue := "dns-controller";
     ttlAnnotationKey := "external-dns.alpha.kubernetes.io/ttl" |}.

End node.

(** ** Definitions used to state the properties *)
Module props.
Import endpoint source.

(** The separator [ParseIP] meets first. *)
Inductive Sep := Dot | Colon.

Fixpoint firstSep (s : string) : option Sep :=
  match s with
  | EmptyString => None
  | String c s' =>
      if Ascii.eqb c "." then Some Dot
      else if Ascii.eqb c ":" then Some Colon
      else firstSep s'
  end.

(** In the words of the specification: an entry "parses as a valid IPv4
    literal" when the dotted-decimal parser accepts it, and "parses as
    IPv6" when it is handed to the IPv6 parser and accepted. *)
Definition parsesAsIPv4Literal (t : string) : Prop :=
  is_Some (Net.parseIPv4 t).

Definition parsesAsIPv6Literal (t : string) : Prop :=
  firstSep t = Some Colon ∧ is_Some (Net.parseIPv6 t).

#[global] Instance parsesAsIPv4Literal_dec t : Decision (parsesAsIPv4Literal t).
Proof. unfold parsesAsIPv4Literal. apply _. Defined.

(** An IPv6 literal whose address is IPv4-mapped (::ffff:a.b.c.d). *)
Definition isIPv4MappedLiteral (t : string) : Prop :=
  firstSep t = Some Colon ∧
  ∃ ip, Net.parseIPv6 t = Some ip ∧ length ip = 16%nat ∧
        take 12 ip = Net.v4InV6Prefix.

(** What one iteration of the loop of [Endpoints] appends for the struct
    [e]: nothing, or the copy with the filtered targets. *)
Definition suppressed (e : Endpoint) : option Endpoint :=
  let targets := getIp4Targets (Targets e) in
  if (0 <? length targets)%nat then Some (set_Targets targets e) else None.

(** Two endpoint structs that differ at most in [Targets]. *)
Definition same_but_Targets (e1 e2 : Endpoint) : Prop :=
  DNSName e1 = DNSName e2 ∧ RecordType e1 = RecordType e2 ∧
  RecordTTL e1 = RecordTTL e2 ∧ Labels e1 = Labels e2.

(** [n] suppression decorators around [base]. *)
Fixpoint decorated {Ctx Handler Err W} (n : nat) (base : Source Ctx Handler Err W)
  : Source Ctx Handler Err W :=
  match n with
  | O => base
  | S n' => NewSuppressIPv6Source (decorated n' base)
  end.

(** A source that answers [Endpoints] with a fixed slice of pointers and
    a fixed error, and records every [AddEventHandler] call it receives
    with its arguments. *)
Definition recordingSource {Ctx Handler Err} (ps : list loc) (err : option Err)
  : Source Ctx Handler Err (list (Ctx * Handler)) :=
  {| Endpoints := fun _ st => Some ((ps, err), st);
     AddEventHandler := fun ctx f st =>
       Some (tt, mkState (heap st) (world st ++ [(ctx, f)])) |}.

End props.

(** ** Concrete stores and sources used to instantiate the properties *)
Module fixtures.
Import endpoint source props.

Definition ep (name : string) (targets : list string) : Endpoint :=
  {| DNSName := name; Targets := targets; RecordType := "A";
     RecordTTL := ttl_unconfigured; Labels := ∅ |}.

Definition epA : Endpoint := ep "a.example.org" ["1.2.3.4"; "::1"; "not-an-ip"].
Definition epB : Endpoint := ep "b.example.org" ["::1"; "fe80::1"].
Definition epC : Endpoint := ep "c.example.org" ["10.0.0.1"; "2001:db8::1"; "10.0.0.2"].
Definition epMapped : Endpoint := ep "m.example.org" ["::ffff:1.2.3.4"; "::1"].

(** Three endpoint structs at the addresses 1, 2 and 3; no call recorded. *)
Definition store : State (list (unit * nat)) :=
  mkState (<[1%positive := epA]> (<[2%positive := epB]> (<[3%positive := epC]> ∅))) [].

Definition upstream : Source unit nat string (list (unit * nat)) :=
  recordingSource [1; 2; 3]%positive None.

Definition failing : Source unit nat string (list (unit * nat)) :=
  recordingSource [1]%positive (Some "node cache not synced"%string).

Definition mappedStore : State (list (unit * nat)) :=
  mkState (<[1%positive := epMapped]> ∅) [].

Definition mappedUpstream : Source unit nat string (list (unit * nat)) :=
  recordingSource [1]%positive None.

End fixtures.

(** ** The rows of the table of [testNodeSourceEndpoints] *)
Module node_fixtures.
Import endpoint node.
Local Open Scope string_scope.

#[local] Existing Instance upstreamReserved.
#[local] Existing Instance fragmentEngine.

(** The [v1.Node] a row creates. *)
Definition testNode (nodeName : string) (nodeAddresses : list NodeAddress)
  (labels : option (gmap string string)) (annotations : gmap string string) : Node :=
  {| Name := nodeName; NodeLabels := labels; Annotations := annotations;
     Addresses := nodeAddresses |}.

(** [NewNodeSource] followed by [Endpoints] on a cache holding [node];
    a constructor error is [require.NoError] failing. *)
Definition runRow (annotationFilter : Selector) (fqdnTemplate : string)
  (labelSelector : Selector) (node : Node) : Error string + list Endpoint :=
  match NewNodeSource annotationFilter fqdnTemplate labelSelector with
  | inl err => inl err
  | inr ns => nodeSource_Endpoints ns (inr [node])
  end.

(** What [validateEndpoints] compares on the rows used below. *)
Definition summary (e : Endpoint) : string * list string * string * Z :=
  (DNSName e, Targets e, RecordType e, ttl_value (RecordTTL e)).

Definition summaries (r : Error string + list Endpoint)
  : Error string + list (string * list string * string * Z) :=
  match r with
  | inl err => inl err
  | inr eps => inr (summary <$> eps)
  end.

Definition externalTraffic : string := "service.beta.kubernetes.io/external-traffic".

Definition node1 (annotations : gmap string string) : Node :=
  testNode "node1" [mkAddr NodeExternalIP "1.2.3.4"] (Some ∅) annotations.

Definition bare : Node := testNode "node1" [] (Some ∅) ∅.

Definition unowned_bare : Node :=
  testNode "node2" [] (Some ∅) {[ controllerAnnotationKey := "not-dns-controller" ]}.

Definition emptySource : nodeSource := mkNodeSource [] None [].

Definition both : Node :=
  testNode "node1"
    [mkAddr NodeExternalIP "1.2.3.4"; mkAddr NodeInternalIP "2.3.4.5"] (Some ∅) ∅.

Definition internalOnly : Node :=
  testNode "node1" [mkAddr NodeInternalIP "2.3.4.5"] (Some ∅) ∅.

Definition ttl (v : string) : gmap string string := {[ ttlAnnotationKey := v ]}.

Definition ttls (r : Error string + list Endpoint) : option (list TTL) :=
  match r with
  | inl _ => None
  | inr eps => Some (RecordTTL <$> eps)
  end.

End node_fixtures.

(** ** Address texts, observations and a call-recording source *)
Module more.
Import endpoint source props.
Local Open Scope string_scope.

(** Every byte of [s] satisfies [P]. *)
Fixpoint string_forall (P : ascii -> bool) (s : string) : bool :=
  match s with
  | EmptyString => true
  | String c s' => P c && string_forall P s'
  end.

Definition isDigit (c : ascii) : bool := Net.between "0" "9" c.

Definition isHexDigit (c : ascii) : bool :=
  Net.between "0" "9" c || Net.between "a" "f" c || Net.between "A" "F" c.

Definition isDigitOrDot (c : ascii) : bool := isDigit c || Ascii.eqb c ".".

(** The bytes a textual IP address is made of. *)
Definition isAddressChar (c : ascii) : bool :=
  isHexDigit c || Ascii.eqb c "." || Ascii.eqb c ":".

Definition notColon (c : ascii) : bool := negb (Ascii.eqb c ":").

(** The decimal digit [x] as a byte. *)
Definition digitChar (x : nat) : ascii := ascii_of_nat (48 + x).

(** An octet in decimal without leading zeros. *)
Definition octet (a : nat) : string :=
  if (a <? 10)%nat then String (digitChar a) ""
  else if (a <? 100)%nat then
    String (digitChar (a / 10)) (String (digitChar (a mod 10)) "")
  else
    String (digitChar (a / 100))
      (String (digitChar (a / 10 mod 10)) (String (digitChar (a mod 10)) "")).

(** The canonical text a.b.c.d, and the IPv6 text ::ffff:a.b.c.d of the
    IPv4-mapped address. *)
Definition dotted (a b c d : nat) : string :=
  octet a ++ "." ++ octet b ++ "." ++ octet c ++ "." ++ octet d.

Definition mapped (a b c d : nat) : string := "::ffff:" ++ dotted a b c d.

(** Four groups joined by dots, and an octet written with one leading
    zero. *)
Definition join4 (g1 g2 g3 g4 : string) : string :=
  g1 ++ "." ++ g2 ++ "." ++ g3 ++ "." ++ g4.

Definition zero_led (a : nat) : string := "0" ++ octet a.

(** The remainder of the text does not go on with a decimal digit. *)
Definition stops_decimal (rest : string) : Prop :=
  match rest with
  | EmptyString => True
  | String c _ => Net.between "0" "9" c = false
  end.

(** What a caller can see of a call of [Endpoints]: a panic, or the error,
    the structs behind the returned pointers and the state outside the
    store. *)
Definition observe {Err W} (r : option ((list loc * option Err) * State W))
  : option (option (list Endpoint) * option Err * W) :=
  match r with
  | Some ((ps, err), st) => Some (deref_all st ps, err, world st)
  | None => None
  end.

(** A source that answers [Endpoints] with a fixed slice and error and
    records the context of every [Endpoints] call it receives. *)
Definition countingSource {Ctx Handler Err} (ps : list loc) (err : option Err)
  : Source Ctx Handler Err (list Ctx) :=
  {| Endpoints := fun ctx st =>
       Some ((ps, err), mkState (heap st) (world st ++ [ctx])%list);
     AddEventHandler := fun _ _ st => Some (tt, st) |}.

(** A store whose first struct has IPv4 targets only and whose second has
    none. *)
Definition v4Store : State (list unit) :=
  mkState (<[1%positive := fixtures.ep "a.example.org" ["1.2.3.4"; "10.0.0.1"]]>
             (<[2%positive := fixtures.ep "b.example.org" ["::1"]]> ∅)) [].

Definition v4Upstream : Source unit nat string (list unit) :=
  countingSource [1]%positive None.

Definition v6Upstream : Source unit nat string (list unit) :=
  countingSource [2]%positive None.

(** The address 7 is not in [v4Store]: a nil pointer. *)
Definition nilUpstream : Source unit nat string (list unit) :=
  countingSource [7; 1]%positive None.

End more.

(** * Properties *)

(** ** The parsers *)
Section NetFacts.
Import Net props.
Local Open Scope Z_scope.

(** The fuel of the IPv6 loop is never exhausted: any two amounts that
    cover the remaining bytes give the same result. *)
Lemma parseIPv6_loop_fuel fuel : ∀ fuel' i s ellipsis ip,
  IPv6len <= i + 2 * Z.of_nat fuel →
  IPv6len <= i + 2 * Z.of_nat fuel' →
  parseIPv6_loop fuel i s ellipsis ip = parseIPv6_loop fuel' i s ellipsis ip.
Proof.
  unfold IPv6len. induction fuel as [|fuel IH]; intros fuel' i s el ip Hf Hf'.
  - assert (Hi : (i <? 16) = false) by (apply Z.ltb_ge; lia).
    destruct fuel'; simpl; unfold IPv6len; rewrite Hi; reflexivity.
  - destruct fuel' as [|fuel'].
    + assert (Hi : (i <? 16) = false) by (apply Z.ltb_ge; lia).
      simpl; unfold IPv6len; rewrite Hi; reflexivity.
    + simpl. destruct (xtoi s) as [[n c] ok].
      repeat case_match; try reflexivity; apply IH; lia.
Qed.

Lemma To4_IPv4 a b c d : To4 (IPv4 a b c d) = Some [a; b; c; d].
Proof. reflexivity. Qed.

Lemma ParseIP_firstSep s :
  ParseIP s = match firstSep s with
              | Some Dot => parseIPv4 s
              | Some Colon => parseIPv6 s
              | None => None
              end.
Proof.
  unfold ParseIP. generalize s at 2 4 5 as t. 
  induction s as [|c s IH]; intros t; simpl; [reflexivity|].
  repeat case_match; auto.
Qed.

Lemma digit_not_sep c :
  between "0" "9" c = true → Ascii.eqb c "." = false ∧ Ascii.eqb c ":" = false.
Proof.
  intros Hd; split.
  - destruct (Ascii.eqb_spec c "."); [subst; discriminate|reflexivity].
  - destruct (Ascii.eqb_spec c ":"); [subst; discriminate|reflexivity].
Qed.

(** When [dtoi] succeeds it has read at least one character, all of them
    digits; if a dot follows them, the dot is the first separator. *)
Lemma dtoi_loop_firstSep s : ∀ n0 i0 n c,
  dtoi_loop s n0 i0 = (n, c, true) →
  (i0 <= c)%nat ∧ ((i0 =? 0)%nat = true → c ≠ 0%nat) ∧
  (char_at_is (sdrop (c - i0) s) 0 "." = true → firstSep s = Some Dot).
Proof.
  induction s as [|ch s IH]; intros n0 i0 n c; simpl.
  - destruct (i0 =? 0)%nat eqn:Ei; [discriminate|].
    intros [= <- <-]. rewrite Nat.sub_diag. simpl. repeat split; auto; discriminate.
  - destruct (between "0" "9" ch) eqn:Ed.
    + destruct (big <=? _); [discriminate|].
      intros Hl. apply IH in Hl as (Hle & _ & Hdot).
      destruct (digit_not_sep _ Ed) as [-> ->].
      split; [lia|]. split; [intros _; lia|].
      replace (c - i0)%nat with (S (c - S i0)) by lia. exact Hdot.
    + destruct (i0 =? 0)%nat eqn:Ei; [discriminate|].
      intros [= <- <-]. rewrite Nat.sub_diag. simpl.
      split; [lia|]. split; [discriminate|].
      unfold char_at_is; simpl. intros ->. reflexivity.
Qed.

(** A string the dotted-decimal parser accepts has a dot as its first
    separator, so [ParseIP] hands it to that parser. *)
Lemma parseIPv4_loop_dot k i s p r :
  (0 < i)%nat → parseIPv4_loop (S k) i s p = Some r →
  char_at_is s 0 "." = true.
Proof.
  intros Hi. cbn [parseIPv4_loop].
  destruct (String.length s =? 0)%nat; [discriminate|].
  apply Nat.ltb_lt in Hi. rewrite Hi.
  destruct (char_at_is s 0 "."); [reflexivity|discriminate].
Qed.

Lemma parseIPv4_firstSep s : is_Some (parseIPv4 s) → firstSep s = Some Dot.
Proof.
  unfold parseIPv4, IPv4len. intros [ip Hip].
  destruct (parseIPv4_loop 4 0 s [0; 0; 0; 0]) as [[p rest]|] eqn:Hloop;
    [clear Hip|discriminate].
  change (parseIPv4_loop 4 0 s [0; 0; 0; 0]) with
    (if (String.length s =? 0)%nat then None
     else let '(n, c, ok) := dtoi s in
          if negb ok || (0xFF <? n) then None
          else if (1 <? c)%nat && char_at_is s 0 "0" then None
          else parseIPv4_loop 3 1 (sdrop c s) (<[0%nat := n mod 256]> [0; 0; 0; 0]))
    in Hloop.
  destruct (String.length s =? 0)%nat; [discriminate|].
  destruct (dtoi s) as [[n c] ok] eqn:Hd.
  destruct ok; [|discriminate].
  destruct (negb true || (0xFF <? n)); [discriminate|].
  destruct ((1 <? c)%nat && char_at_is s 0 "0"); [discriminate|].
  apply parseIPv4_loop_dot in Hloop; [|lia].
  apply dtoi_loop_firstSep in Hd as (_ & _ & Hsep).
  apply Hsep. rewrite Nat.sub_0_r. exact Hloop.
Qed.

Lemma ParseIP_dotted s : is_Some (parseIPv4 s) → ParseIP s = parseIPv4 s.
Proof.
  intros H. rewrite ParseIP_firstSep, (parseIPv4_firstSep _ H). reflexivity.
Qed.

Lemma parseIPv4_16 s ip :
  parseIPv4 s = Some ip → ∃ a b c d, ip = IPv4 a b c d.
Proof.
  unfold parseIPv4. intros H.
  repeat case_match; try discriminate. injection H as <-. eauto.
Qed.

Lemma To4_16 ip :
  length ip = 16%nat →
  (is_Some (To4 ip) ↔ take 12 ip = v4InV6Prefix).
Proof.
  intros Hlen.
  do 17 (destruct ip as [|? ip]; try discriminate). clear Hlen.
  unfold To4, v4InV6Prefix, isZeros, at_.
  change (Z.to_nat 10) with 10%nat. change (Z.to_nat 11) with 11%nat.
  change (Z.to_nat IPv6len) with 16%nat.
  cbn -[Z.eqb].
  split.
  - intros [r Hr].
    repeat match type of Hr with
    | context [Z.eqb ?a ?b] => destruct (Z.eqb_spec a b); cbn -[Z.eqb] in Hr
    end; try discriminate; subst; reflexivity.
  - intros [= -> -> -> -> -> -> -> -> -> -> -> ->]. cbn. eauto.
Qed.

Lemma parseIPv6_loop_length fuel : ∀ i s ellipsis ip st,
  parseIPv6_loop fuel i s ellipsis ip = Some st →
  length (v6_ip st) = length ip.
Proof.
  induction fuel as [|fuel IH]; intros i s el ip st; simpl.
  - case_match; intros [= <-]; reflexivity.
  - destruct (xtoi s) as [[n c] ok].
    repeat case_match; try discriminate;
      try (intros [= <-]; cbn; unfold set_; rewrite ?length_insert; reflexivity);
      intros Hrec; apply IH in Hrec; rewrite Hrec; unfold set_;
      rewrite ?length_insert; reflexivity.
Qed.

Lemma down_loop_length k : ∀ j f ip,
  (∀ j ip, length (f j ip) = length ip) →
  length (down_loop k j f ip) = length ip.
Proof.
  induction k as [|k IH]; intros j f ip Hf; simpl; [reflexivity|].
  rewrite IH, Hf; auto.
Qed.

(** [parseIPv6] returns sixteen bytes. *)
Lemma parseIPv6_length s ip : parseIPv6 s = Some ip → length ip = 16%nat.
Proof.
  unfold parseIPv6. intros H.
  repeat case_match; try discriminate; injection H as <-;
    try reflexivity;
    repeat match goal with
    | H : parseIPv6_loop _ _ _ _ _ = Some _ |- _ =>
        apply parseIPv6_loop_length in H; cbn in H
    end;
    unfold down_from; rewrite ?down_loop_length; auto;
    intros; unfold set_; apply length_insert.
Qed.

End NetFacts.

(** ** The target filter *)
Section FilterFacts.
Import Net endpoint source props.

(** The append loop of [getIp4Targets] is a filter. *)
Lemma getIp4Targets_filter targets :
  getIp4Targets targets = filter (fun t => isIPv4 t = true) targets.
Proof.
  unfold getIp4Targets.
  enough (Hgen : ∀ acc,
    fold_left (fun result target =>
                 if isIPv4 target then result ++ [target] else result)
              targets acc
    = acc ++ filter (fun t => isIPv4 t = true) targets) by apply Hgen.
  induction targets as [|t targets IH]; intros acc; simpl.
  - rewrite app_nil_r. reflexivity.
  - rewrite IH, filter_cons. destruct (isIPv4 t) eqn:Et.
    + rewrite decide_True by reflexivity. rewrite <- app_assoc. reflexivity.
    + rewrite decide_False by discriminate. reflexivity.
Qed.

Lemma getIp4Targets_idem targets :
  getIp4Targets (getIp4Targets targets) = getIp4Targets targets.
Proof.
  rewrite !getIp4Targets_filter.
  induction targets as [|t targets IH]; [reflexivity|].
  rewrite filter_cons. destruct (decide (isIPv4 t = true)) as [Ht|Ht].
  - rewrite filter_cons, decide_True by exact Ht. rewrite IH. reflexivity.
  - exact IH.
Qed.

Lemma getIp4Targets_sublist targets : getIp4Targets targets `sublist_of` targets.
Proof. rewrite getIp4Targets_filter. apply sublist_filter. Qed.

(** The test of [getIp4Targets] accepts the dotted-decimal IPv4 literals
    and the IPv6 literals of IPv4-mapped addresses, and nothing else. *)
Lemma isIPv4_spec t :
  isIPv4 t = true ↔ parsesAsIPv4Literal t ∨ isIPv4MappedLiteral t.
Proof.
  unfold isIPv4, parsesAsIPv4Literal, isIPv4MappedLiteral.
  rewrite ParseIP_firstSep. split.
  - destruct (firstSep t) as [[]|] eqn:Hsep; [| |discriminate].
    + destruct (parseIPv4 t); [eauto|discriminate].
    + destruct (parseIPv6 t) as [ip|] eqn:Hip; [|discriminate].
      intros Hto4%bool_decide_eq_true. right. split; [reflexivity|].
      pose proof (parseIPv6_length _ _ Hip) as Hlen.
      exists ip. split; [reflexivity|]. split; [exact Hlen|].
      apply To4_16; assumption.
  - intros [Hv4|[Hsep (ip & Hip & Hlen & Hpre)]].
    + rewrite (parseIPv4_firstSep _ Hv4). destruct Hv4 as [ip Hip].
      rewrite Hip. apply parseIPv4_16 in Hip as (a & b & c & d & ->).
      rewrite To4_IPv4. apply bool_decide_eq_true. eauto.
    + rewrite Hsep, Hip. apply bool_decide_eq_true, To4_16; assumption.
Qed.

Lemma suppressed_Some e e' :
  suppressed e = Some e' ↔
  getIp4Targets (Targets e) ≠ [] ∧ e' = set_Targets (getIp4Targets (Targets e)) e.
Proof.
  unfold suppressed. destruct (getIp4Targets (Targets e)) as [|t ts]; simpl.
  - split; [discriminate|intros [[] _]; reflexivity].
  - split; [intros [= <-]; split; [discriminate|reflexivity]|].
    intros [_ ->]. reflexivity.
Qed.

Lemma suppressed_None e :
  suppressed e = None ↔ getIp4Targets (Targets e) = [].
Proof.
  unfold suppressed. destruct (getIp4Targets (Targets e)) as [|t ts]; simpl.
  - split; reflexivity.
  - split; discriminate.
Qed.

(** A struct the loop has produced is left as it is by a second pass. *)
Lemma suppressed_idem e e' : suppressed e = Some e' → suppressed e' = Some e'.
Proof.
  intros (Hne & ->)%suppressed_Some. apply suppressed_Some. simpl.
  rewrite getIp4Targets_idem. split; [exact Hne|reflexivity].
Qed.

Lemma omap_suppressed_fixed es :
  Forall (fun e => suppressed e = Some e) es → omap suppressed es = es.
Proof.
  induction 1 as [|e es He _ IH]; [reflexivity|].
  simpl. rewrite He. f_equal. exact IH.
Qed.

Lemma omap_suppressed_idem es :
  Forall (fun e => suppressed e = Some e) (omap suppressed es).
Proof.
  induction es as [|e es IH]; simpl; [constructor|].
  destruct (suppressed e) as [e'|] eqn:He; [|exact IH].
  constructor; [|exact IH]. eapply suppressed_idem, He.
Qed.

End FilterFacts.

(** ** The loop of [Endpoints] on the store *)
Section LoopFacts.
Import endpoint source props.
Context {W : Type}.
Implicit Types (st : State W) (ps : list loc) (es : list Endpoint).

Lemma deref_all_Forall2 st ps es :
  deref_all st ps = Some es ↔ Forall2 (fun p e => heap st !! p = Some e) ps es.
Proof. apply mapM_Some. Qed.

Lemma deref_all_weaken st st' ps es :
  heap st ⊆ heap st' → deref_all st ps = Some es → deref_all st' ps = Some es.
Proof.
  intros Hsub. rewrite !deref_all_Forall2.
  intros Hall. eapply Forall2_impl; [exact Hall|].
  intros p e Hp. exact (lookup_weaken _ _ _ _ Hp Hsub).
Qed.

Lemma new_modify_heap st e f :
  let p := fresh (dom (heap st)) in
  heap st !! p = None ∧
  bind (new e) (fun q => bind (modify q f) (fun _ => ret q)) st
  = Some (p, mkState (<[p := f e]> (heap st)) (world st)).
Proof.
  intros p. split.
  - apply not_elem_of_dom, is_fresh.
  - unfold bind, new, modify, ret. simpl. fold p.
    rewrite lookup_insert_eq, insert_insert_eq. reflexivity.
Qed.

(** One pass of the loop over pointers that can all be dereferenced: it
    terminates without panic, allocates one fresh struct per surviving
    endpoint, and leaves every struct that existed before as it was. *)
Lemma suppress_loop_run ps : ∀ results st es,
  deref_all st ps = Some es →
  ∃ news st',
    suppress_loop ps results st = Some (results ++ news, st') ∧
    world st' = world st ∧
    heap st ⊆ heap st' ∧
    Forall (fun p => heap st !! p = None) news ∧
    NoDup news ∧
    deref_all st' news = Some (omap suppressed es).
Proof.
  induction ps as [|p ps IH]; intros results st es Hes.
  - apply deref_all_Forall2 in Hes. inversion Hes; subst.
    exists [], st. rewrite app_nil_r. simpl.
    repeat split; auto; constructor.
  - apply deref_all_Forall2 in Hes.
    inversion Hes as [|? e ? es' Hp Hrest]; subst.
    apply deref_all_Forall2 in Hrest.
    cbn [suppress_loop]. unfold bind at 1. unfold load at 1. rewrite Hp.
    cbn [omap list_omap]. unfold suppressed at 1.
    destruct (0 <? length (getIp4Targets (Targets e)))%nat.
    + set (targets := getIp4Targets (Targets e)).
      destruct (new_modify_heap st e (set_Targets targets)) as [Hfresh Hrun].
      set (q := fresh (dom (heap st))) in *.
      set (st2 := mkState (<[q := set_Targets targets e]> (heap st)) (world st)) in *.
      assert (Hsub : heap st ⊆ heap st2) by (apply insert_subseteq, Hfresh).
      destruct (IH (results ++ [q]) st2 es') as (news & st' & Hloop & Hw & Hh & Hf & Hnd & Hd).
      { eapply deref_all_weaken; eassumption. }
      exists (q :: news), st'. split.
      { unfold bind, new, modify, ret in Hrun |- *. simpl in Hrun |- *.
        fold q in Hrun |- *.
        destruct (<[q:=e]> (heap st) !! q) eqn:Hq; [|discriminate].
        injection Hrun as Hrun. fold st2 in Hloop. 
        rewrite <- app_assoc in Hloop. simpl in Hloop. rewrite <- Hloop.
        f_equal. unfold st2. rewrite <- Hrun. reflexivity. }
      split; [exact Hw|]. split; [etrans; eassumption|].
      assert (Hqnews : q ∉ news).
      { intros Hin. rewrite Forall_forall in Hf. apply Hf in Hin.
        simpl in Hin. rewrite lookup_insert_eq in Hin. discriminate. }
      split.
      { constructor; [exact Hfresh|].
        eapply Forall_impl; [exact Hf|]. intros r Hr.
        exact (lookup_weaken_None _ _ _ Hr Hsub). }
      split; [constructor; assumption|].
      apply deref_all_Forall2. constructor.
      * refine (lookup_weaken _ _ _ _ _ Hh). simpl. apply lookup_insert_eq.
      * apply deref_all_Forall2, Hd.
    + destruct (IH results st es' Hrest) as (news & st' & Hloop & Hrem).
      exists news, st'. split; [exact Hloop|exact Hrem].
Qed.

(** Whatever the pointers are: if a pass returns, what it appended are
    structs that a further pass leaves as they are. *)
Lemma suppress_loop_inv ps : ∀ results st res st',
  suppress_loop ps results st = Some (res, st') →
  ∃ news outs,
    res = results ++ news ∧
    world st' = world st ∧
    heap st ⊆ heap st' ∧
    deref_all st' news = Some outs ∧
    Forall (fun e => suppressed e = Some e) outs.
Proof.
  induction ps as [|p ps IH]; intros results st res st' Hrun.
  - injection Hrun as <- <-. exists [], []. rewrite app_nil_r.
    repeat split; auto.
  - cbn [suppress_loop] in Hrun. unfold bind at 1 in Hrun.
    unfold load at 1 in Hrun.
    destruct (heap st !! p) as [e|] eqn:Hp; [|discriminate].
    destruct (0 <? length (getIp4Targets (Targets e)))%nat eqn:Hlen.
    + set (targets := getIp4Targets (Targets e)) in *.
      pose proof (is_fresh (dom (heap st))) as Hfresh.
      apply not_elem_of_dom in Hfresh.
      unfold bind, new, modify in Hrun. simpl in Hrun.
      set (q := fresh (dom (heap st))) in *.
      rewrite lookup_insert_eq, insert_insert_eq in Hrun.
      apply IH in Hrun as (news & outs & -> & Hw & Hh & Hd & Hst).
      simpl in Hw, Hh.
      exists (q :: news), (set_Targets targets e :: outs).
      rewrite <- app_assoc. split; [reflexivity|]. split; [exact Hw|].
      split; [etrans; [apply insert_subseteq, Hfresh|exact Hh]|].
      split.
      * apply deref_all_Forall2. constructor.
        -- refine (lookup_weaken _ _ _ _ _ Hh). apply lookup_insert_eq.
        -- apply deref_all_Forall2, Hd.
      * constructor; [|exact Hst].
        apply (suppressed_idem e). unfold suppressed. fold targets.
        rewrite Hlen. reflexivity.
    + apply IH in Hrun. exact Hrun.
Qed.

Lemma filter_omap_suppressed es :
  Forall2 (fun e out => out = set_Targets (getIp4Targets (Targets e)) e)
    (filter (fun e => getIp4Targets (Targets e) ≠ []) es)
    (omap suppressed es).
Proof.
  induction es as [|e es IH]; [constructor|].
  rewrite filter_cons. cbn [omap list_omap].
  destruct (suppressed e) as [out|] eqn:He.
  - apply suppressed_Some in He as [Hne ->].
    rewrite decide_True by exact Hne. constructor; [reflexivity|exact IH].
  - apply suppressed_None in He.
    rewrite decide_False by (intros Hne; exact (Hne He)). exact IH.
Qed.

End LoopFacts.

(** ** The decorator *)
Section DecoratorFacts.
Import endpoint source props.
Context {Ctx Handler Err W : Type}.
Implicit Types (s : Source Ctx Handler Err W) (st : State W).

Lemma Endpoints_unfold s ctx st :
  Endpoints (NewSuppressIPv6Source s) ctx st =
  match Endpoints s ctx st with
  | Some ((ps, Some err), st1) => Some ((ps, Some err), st1)
  | Some ((ps, None), st1) =>
      match suppress_loop ps [] st1 with
      | Some (results, st2) => Some ((results, None), st2)
      | None => None
      end
  | None => None
  end.
Proof.
  cbn. unfold suppressIPv6Source_Endpoints, bind, ret. cbn.
  destruct (Endpoints s ctx st) as [[[ps [err|]] st1]|]; reflexivity.
Qed.

(** The decorator on an upstream answer without error whose pointers can
    all be dereferenced. *)
Lemma Endpoints_run s ctx st ps st1 es :
  Endpoints s ctx st = Some ((ps, None), st1) →
  deref_all st1 ps = Some es →
  ∃ results st2 outs,
    Endpoints (NewSuppressIPv6Source s) ctx st = Some ((results, None), st2) ∧
    world st2 = world st1 ∧
    heap st1 ⊆ heap st2 ∧
    Forall (fun q => heap st1 !! q = None) results ∧
    NoDup results ∧
    deref_all st2 results = Some outs ∧
    Forall2 (fun e out => out = set_Targets (getIp4Targets (Targets e)) e)
      (filter (fun e => getIp4Targets (Targets e) ≠ []) es) outs.
Proof.
  intros Hup Hes. rewrite Endpoints_unfold, Hup.
  destruct (suppress_loop_run ps [] st1 es Hes)
    as (news & st2 & Hloop & Hw & Hh & Hf & Hnd & Hd).
  rewrite Hloop. simpl. exists news, st2, (omap suppressed es).
  repeat split; auto. apply filter_omap_suppressed.
Qed.

End DecoratorFacts.

(** * The claims about the suppression decorator *)
Section DecoratorClaims.
Import endpoint source props.
Context {Ctx Handler Err W : Type}.
Implicit Types (s : Source Ctx Handler Err W) (st : State W).

(** C1, as amended.  When the wrapped source answers without error, the
    decorator returns, and the structs it returns are, in order, those of
    the upstream endpoints that keep a target, each with [Targets]
    rewritten to exactly the subsequence of entries that pass the test
    [ip != nil && ip.To4() != nil], in their relative order.  The entries
    that pass are the dotted-decimal IPv4 literals and the IPv6 literals
    of IPv4-mapped addresses; entries that fail to parse or parse as any
    other IPv6 address are dropped.  In particular the targets
    "1.2.3.4", "::1", "not-an-ip" become "1.2.3.4". *)
Theorem C1_targets_are_the_IPv4_entries s ctx st ps st1 es
  (Hup : Endpoints s ctx st = Some ((ps, None), st1))
  (Hes : deref_all st1 ps = Some es) :
  (∃ results st2 outs,
     Endpoints (NewSuppressIPv6Source s) ctx st = Some ((results, None), st2) ∧
     deref_all st2 results = Some outs ∧
     Forall2 (fun e out =>
                Targets out = filter (fun t => isIPv4 t = true) (Targets e))
       (filter (fun e => filter (fun t => isIPv4 t = true) (Targets e) ≠ []) es)
       outs) ∧
  (∀ t, isIPv4 t = true ↔ parsesAsIPv4Literal t ∨ isIPv4MappedLiteral t) ∧
  getIp4Targets ["1.2.3.4"; "::1"; "not-an-ip"]%string = ["1.2.3.4"%string].
Proof.
  split; [|split; [exact isIPv4_spec|reflexivity]].
  destruct (Endpoints_run s ctx st ps st1 es Hup Hes)
    as (results & st2 & outs & Hrun & _ & _ & _ & _ & Hd & Hall).
  exists results, st2, outs. split; [exact Hrun|]. split; [exact Hd|].
  assert (Hfilter : filter (fun e => filter (fun t => isIPv4 t = true) (Targets e) ≠ []) es
                    = filter (fun e => getIp4Targets (Targets e) ≠ []) es).
  { apply list_filter_iff. intros e. rewrite getIp4Targets_filter. reflexivity. }
  rewrite Hfilter. eapply Forall2_impl; [exact Hall|].
  intros e out ->. simpl. apply getIp4Targets_filter.
Qed.

(** C3.  An upstream endpoint none of whose targets survives the filter
    has no counterpart in the result: the returned structs correspond one
    to one, in order, to the upstream endpoints with a surviving target,
    and none of them has an empty [Targets]. *)
Theorem C3_no_empty_targets s ctx st ps st1 es
  (Hup : Endpoints s ctx st = Some ((ps, None), st1))
  (Hes : deref_all st1 ps = Some es) :
  ∃ results st2 outs,
    Endpoints (NewSuppressIPv6Source s) ctx st = Some ((results, None), st2) ∧
    deref_all st2 results = Some outs ∧
    Forall2 (fun e out => DNSName out = DNSName e ∧
                          Targets out = getIp4Targets (Targets e))
      (filter (fun e => getIp4Targets (Targets e) ≠ []) es) outs ∧
    Forall (fun out => Targets out ≠ []) outs.
Proof.
  destruct (Endpoints_run s ctx st ps st1 es Hup Hes)
    as (results & st2 & outs & Hrun & _ & _ & _ & _ & Hd & Hall).
  exists results, st2, outs. split; [exact Hrun|]. split; [exact Hd|]. split.
  - eapply Forall2_impl; [exact Hall|]. intros e out ->. split; reflexivity.
  - eapply Forall2_Forall_r; [exact Hall|].
    apply Forall_forall. intros e [Hne _]%list_elem_of_filter out ->.
    exact Hne.
Qed.

(** C4.  When the wrapped source's [Endpoints] returns an error, the
    decorator returns the same slice and the same error in the same
    state: nothing is wrapped, retried, filtered or allocated. *)
Theorem C4_error_passes_through s ctx st ps err st1
  (Hup : Endpoints s ctx st = Some ((ps, Some err), st1)) :
  Endpoints (NewSuppressIPv6Source s) ctx st = Some ((ps, Some err), st1).
Proof. rewrite Endpoints_unfold, Hup. reflexivity. Qed.

(** C5.  Every struct the decorator returns agrees with the upstream
    endpoint it comes from on DNSName, RecordType, RecordTTL and Labels;
    every struct that existed when the wrapped source returned, the
    upstream endpoints among them, is unchanged afterwards; and what is
    returned are new structs, at pairwise distinct addresses that were
    not in use before. *)
Theorem C5_other_fields_and_input_kept s ctx st ps st1 es
  (Hup : Endpoints s ctx st = Some ((ps, None), st1))
  (Hes : deref_all st1 ps = Some es) :
  ∃ results st2 outs,
    Endpoints (NewSuppressIPv6Source s) ctx st = Some ((results, None), st2) ∧
    deref_all st2 results = Some outs ∧
    Forall2 same_but_Targets
      (filter (fun e => getIp4Targets (Targets e) ≠ []) es) outs ∧
    (∀ p e, heap st1 !! p = Some e → heap st2 !! p = Some e) ∧
    deref_all st2 ps = Some es ∧
    Forall (fun q => heap st1 !! q = None) results ∧
    NoDup results ∧
    world st2 = world st1.
Proof.
  destruct (Endpoints_run s ctx st ps st1 es Hup Hes)
    as (results & st2 & outs & Hrun & Hw & Hh & Hf & Hnd & Hd & Hall).
  exists results, st2, outs. split; [exact Hrun|]. split; [exact Hd|].
  split.
  { eapply Forall2_impl; [exact Hall|]. intros e out ->.
    repeat split; reflexivity. }
  split.
  { intros p e Hp. exact (lookup_weaken _ _ _ _ Hp Hh). }
  split; [eapply deref_all_weaken; eassumption|].
  repeat split; assumption.
Qed.

(** C6.  [AddEventHandler] on the decorator is [AddEventHandler] on the
    wrapped source with the same arguments, whatever that source does;
    so it is through any number of decorators, and a base that records
    the calls it receives records exactly one, with these arguments. *)
Theorem C6_AddEventHandler_forwarded :
  (∀ s ctx f st,
     AddEventHandler (NewSuppressIPv6Source s) ctx f st
     = AddEventHandler s ctx f st) ∧
  (∀ n s ctx f st,
     AddEventHandler (decorated n s) ctx f st = AddEventHandler s ctx f st) ∧
  (∀ n ps (err : option Err) (ctx : Ctx) (f : Handler)
     (rec : State (list (Ctx * Handler))),
     AddEventHandler (decorated n (recordingSource ps err)) ctx f rec
     = Some (tt, mkState (heap rec) (world rec ++ [(ctx, f)]))).
Proof.
  assert (Hchain : ∀ W' n (b : Source Ctx Handler Err W') ctx f (w : State W'),
    AddEventHandler (decorated n b) ctx f w = AddEventHandler b ctx f w).
  { intros W' n b ctx f w. induction n as [|n IH]; [reflexivity|exact IH]. }
  split; [reflexivity|]. split; [apply Hchain|].
  intros n ps err ctx f rec. rewrite Hchain. reflexivity.
Qed.

(** C7.  The structs the decorator returns correspond, in order, to a
    subsequence of the upstream endpoints (so to pairwise distinct
    positions of the upstream slice); each has for [Targets] a
    subsequence of the targets of its upstream endpoint and agrees with
    it on every other field. *)
Theorem C7_only_drops_or_shrinks s ctx st ps st1 es
  (Hup : Endpoints s ctx st = Some ((ps, None), st1))
  (Hes : deref_all st1 ps = Some es) :
  ∃ results st2 outs kept,
    Endpoints (NewSuppressIPv6Source s) ctx st = Some ((results, None), st2) ∧
    deref_all st2 results = Some outs ∧
    kept `sublist_of` es ∧
    Forall2 (fun e out => Targets out `sublist_of` Targets e ∧
                          same_but_Targets e out) kept outs.
Proof.
  destruct (Endpoints_run s ctx st ps st1 es Hup Hes)
    as (results & st2 & outs & Hrun & _ & _ & _ & _ & Hd & Hall).
  exists results, st2, outs, (filter (fun e => getIp4Targets (Targets e) ≠ []) es).
  split; [exact Hrun|]. split; [exact Hd|]. split; [apply sublist_filter|].
  eapply Forall2_impl; [exact Hall|]. intros e out ->. split.
  - apply getIp4Targets_sublist.
  - repeat split; reflexivity.
Qed.

(** C10.  Two decorators give what one gives: the filter maps a filtered
    list to itself, and from any state the doubly wrapped source panics
    exactly when the singly wrapped one does, returns the same error,
    leaves the same state outside the store, and returns pointers to the
    same structs, field by field and in the same order. *)
Theorem C10_idempotent s ctx st :
  (∀ targets, getIp4Targets (getIp4Targets targets) = getIp4Targets targets) ∧
  match Endpoints (NewSuppressIPv6Source s) ctx st,
        Endpoints (NewSuppressIPv6Source (NewSuppressIPv6Source s)) ctx st with
  | Some ((r1, e1), s1), Some ((r2, e2), s2) =>
      e2 = e1 ∧ world s2 = world s1 ∧
      deref_all s2 r2 = deref_all s1 r1 ∧
      (e1 = None → is_Some (deref_all s1 r1))
  | None, None => True
  | _, _ => False
  end.
Proof.
  split; [exact getIp4Targets_idem|].
  rewrite (Endpoints_unfold (NewSuppressIPv6Source s)).
  destruct (Endpoints (NewSuppressIPv6Source s) ctx st)
    as [[[r1 [err|]] s1]|] eqn:Hone; [repeat split; try discriminate| |exact I].
  rewrite Endpoints_unfold in Hone.
  destruct (Endpoints s ctx st) as [[[ps [err|]] st1]|]; try discriminate.
  destruct (suppress_loop ps [] st1) as [[r s1']|] eqn:Hloop; [|discriminate].
  injection Hone as -> ->.
  apply suppress_loop_inv in Hloop as (news & outs & -> & _ & _ & Hd & Hfix).
  simpl in *.
  destruct (suppress_loop_run news [] s1 outs Hd)
    as (news2 & s2 & Hloop2 & Hw2 & _ & _ & _ & Hd2).
  rewrite Hloop2. simpl.
  rewrite Hd, Hd2, (omap_suppressed_fixed _ Hfix). repeat split; eauto.
Qed.

End DecoratorClaims.

Section DecoratorInstances.
Import endpoint source props fixtures.
Local Open Scope string_scope.

(** The decorator on the three endpoints of [store]: the first keeps its
    one IPv4 target, the second disappears, the third keeps two. *)
Example Endpoints_on_store :
  ∃ st2,
    Endpoints (NewSuppressIPv6Source upstream) tt store
    = Some (([4; 5]%positive, None), st2) ∧
    deref_all st2 [4; 5]%positive
    = Some [ep "a.example.org" ["1.2.3.4"];
            ep "c.example.org" ["10.0.0.1"; "10.0.0.2"]] ∧
    deref_all st2 [1; 2; 3]%positive = Some [epA; epB; epC].
Proof. eexists. split; [vm_compute; reflexivity|]. split; vm_compute; reflexivity. Qed.

Lemma C1_witness :
  Endpoints upstream tt store = Some (([1; 2; 3]%positive, None), store) ∧
  deref_all store [1; 2; 3]%positive = Some [epA; epB; epC] ∧
  ((∃ results st2 outs,
      Endpoints (NewSuppressIPv6Source upstream) tt store
      = Some ((results, None), st2) ∧
      deref_all st2 results = Some outs ∧
      Forall2 (fun e out =>
                 Targets out = filter (fun t => isIPv4 t = true) (Targets e))
        (filter (fun e => filter (fun t => isIPv4 t = true) (Targets e) ≠ [])
                [epA; epB; epC])
        outs) ∧
   (∀ t, isIPv4 t = true ↔ parsesAsIPv4Literal t ∨ isIPv4MappedLiteral t) ∧
   getIp4Targets ["1.2.3.4"; "::1"; "not-an-ip"] = ["1.2.3.4"]).
Proof.
  split; [reflexivity|]. split; [reflexivity|].
  apply (C1_targets_are_the_IPv4_entries upstream tt store [1; 2; 3]%positive store);
    reflexivity.
Defined.

(** C1 as stated fails on an IPv6 literal of an IPv4-mapped address: the
    dotted-decimal parser rejects "::ffff:1.2.3.4", the IPv6 parser
    accepts it, and the decorator keeps it. *)
Lemma C1_counterexample :
  ∃ results st2 out,
    Endpoints (NewSuppressIPv6Source mappedUpstream) tt mappedStore
    = Some ((results, None), st2) ∧
    deref_all st2 results = Some [out] ∧
    Targets out = ["::ffff:1.2.3.4"] ∧
    ¬ parsesAsIPv4Literal "::ffff:1.2.3.4" ∧
    parsesAsIPv6Literal "::ffff:1.2.3.4" ∧
    Targets out ≠ filter parsesAsIPv4Literal (Targets epMapped).
Proof.
  eexists _, _, _. split; [vm_compute; reflexivity|].
  split; [vm_compute; reflexivity|]. split; [reflexivity|].
  split; [intros [ip Hip]; vm_compute in Hip; discriminate|].
  split; [split; [reflexivity|vm_compute; eauto]|].
  vm_compute. discriminate.
Qed.

Lemma C3_witness :
  Endpoints upstream tt store = Some (([1; 2; 3]%positive, None), store) ∧
  deref_all store [1; 2; 3]%positive = Some [epA; epB; epC] ∧
  ∃ results st2 outs,
    Endpoints (NewSuppressIPv6Source upstream) tt store
    = Some ((results, None), st2) ∧
    deref_all st2 results = Some outs ∧
    Forall2 (fun e out => DNSName out = DNSName e ∧
                          Targets out = getIp4Targets (Targets e))
      (filter (fun e => getIp4Targets (Targets e) ≠ []) [epA; epB; epC]) outs ∧
    Forall (fun out => Targets out ≠ []) outs.
Proof.
  split; [reflexivity|]. split; [reflexivity|].
  apply (C3_no_empty_targets upstream tt store [1; 2; 3]%positive store);
    reflexivity.
Defined.

Lemma C4_witness :
  Endpoints failing tt store
  = Some (([1]%positive, Some "node cache not synced"), store) ∧
  Endpoints (NewSuppressIPv6Source failing) tt store
  = Some (([1]%positive, Some "node cache not synced"), store).
Proof.
  split; [reflexivity|].
  apply (C4_error_passes_through failing tt store). reflexivity.
Defined.

Lemma C5_witness :
  Endpoints upstream tt store = Some (([1; 2; 3]%positive, None), store) ∧
  deref_all store [1; 2; 3]%positive = Some [epA; epB; epC] ∧
  ∃ results st2 outs,
    Endpoints (NewSuppressIPv6Source upstream) tt store
    = Some ((results, None), st2) ∧
    deref_all st2 results = Some outs ∧
    Forall2 same_but_Targets
      (filter (fun e => getIp4Targets (Targets e) ≠ []) [epA; epB; epC]) outs ∧
    (∀ p e, heap store !! p = Some e → heap st2 !! p = Some e) ∧
    deref_all st2 [1; 2; 3]%positive = Some [epA; epB; epC] ∧
    Forall (fun q => heap store !! q = None) results ∧
    NoDup results ∧
    world st2 = world store.
Proof.
  split; [reflexivity|]. split; [reflexivity|].
  apply (C5_other_fields_and_input_kept upstream tt store [1; 2; 3]%positive store);
    reflexivity.
Defined.

Lemma C7_witness :
  Endpoints upstream tt store = Some (([1; 2; 3]%positive, None), store) ∧
  deref_all store [1; 2; 3]%positive = Some [epA; epB; epC] ∧
  ∃ results st2 outs kept,
    Endpoints (NewSuppressIPv6Source upstream) tt store
    = Some ((results, None), st2) ∧
    deref_all st2 results = Some outs ∧
    kept `sublist_of` [epA; epB; epC] ∧
    Forall2 (fun e out => Targets out `sublist_of` Targets e ∧
                          same_but_Targets e out) kept outs.
Proof.
  split; [reflexivity|]. split; [reflexivity|].
  apply (C7_only_drops_or_shrinks upstream tt store [1; 2; 3]%positive store);
    reflexivity.
Defined.

(** Two decorators around [upstream] on [store]: the second pass copies
    the two structs of the first to new addresses, unchanged. *)
Example Endpoints_twice_on_store :
  ∃ st3,
    Endpoints (NewSuppressIPv6Source (NewSuppressIPv6Source upstream)) tt store
    = Some (([6; 7]%positive, None), st3) ∧
    deref_all st3 [6; 7]%positive
    = Some [ep "a.example.org" ["1.2.3.4"];
            ep "c.example.org" ["10.0.0.1"; "10.0.0.2"]].
Proof. eexists. split; vm_compute; reflexivity. Qed.

(** One registration through three decorators reaches the base once. *)
Example AddEventHandler_through_three :
  AddEventHandler (decorated 3 upstream) tt 7%nat store
  = Some (tt, mkState (heap store) [(tt, 7%nat)]).
Proof. reflexivity. Qed.

End DecoratorInstances.

(** * The claims about the node source *)
Section NodeFacts.
Import endpoint node.
Context {reserved : Reserved} {engine : TemplateEngine} {Upstream : Type}.
Implicit Types (ns : nodeSource) (node : Node).


Lemma skipped_nodeEndpoint ns node :
  processed ns node = false →
  nodeEndpoint (Upstream := Upstream) ns node = inr None.
Proof.
  unfold processed, nodeEndpoint.
  destruct (owned node); [|reflexivity].
  destruct (Matches (annotationFilter ns) (Annotations node)); [|reflexivity].
  destruct (Matches (labelSelector ns) (default ∅ (NodeLabels node)));
    [discriminate|reflexivity].
Qed.









End NodeFacts.

Section NodeInstances.
Import endpoint node node_fixtures.
Local Open Scope string_scope.
#[local] Existing Instance upstreamReserved.
#[local] Existing Instance fragmentEngine.



(** Rows of [testNodeSourceNewNodeSource]. *)
Example row_invalid_template :
  NewNodeSource (Upstream := string) [] "{{.Name" []
  = inl (ConfigurationError "{{.Name").
Proof. reflexivity. Qed.

Example row_valid_empty_template :
  NewNodeSource (Upstream := string) [] "" [] = inr (mkNodeSource [] None []).
Proof. reflexivity. Qed.

Example row_valid_template :
  ∃ ns, NewNodeSource (Upstream := string) []
          "{{.Name}}-{{.Namespace}}.ext-dns.test.com" [] = inr ns.
Proof. eexists. vm_compute. reflexivity. Qed.

Example row_annotation_filter :
  ∃ ns, NewNodeSource (Upstream := string)
          [Equals "kubernetes.io/ingress.class" "nginx"] "" [] = inr ns.
Proof. eexists. reflexivity. Qed.

(** Rows of [testNodeSourceEndpoints]: what the model yields is what the
    row expects. *)
Example row_short_hostname :
  summaries (runRow [] "" [] (node1 ∅)) = inr [("node1", ["1.2.3.4"], "A", 0%Z)].
Proof. vm_compute. reflexivity. Qed.

Example row_fqdn_template :
  summaries (runRow [] "{{.Name}}.example.org" [] (node1 ∅))
  = inr [("node1.example.org", ["1.2.3.4"], "A", 0%Z)].
Proof. vm_compute. reflexivity. Qed.

Example row_fqdn_and_template :
  summaries (runRow [] "{{.Name}}.example.org" []
               (testNode "node1.example.org" [mkAddr NodeExternalIP "1.2.3.4"]
                  (Some ∅) ∅))
  = inr [("node1.example.org.example.org", ["1.2.3.4"], "A", 0%Z)].
Proof. vm_compute. reflexivity. Qed.

Example row_two_external :
  summaries (runRow [] "{{.Name}}.example.org" []
               (testNode "node1"
                  [mkAddr NodeExternalIP "1.2.3.4"; mkAddr NodeExternalIP "5.6.7.8"]
                  (Some ∅) ∅))
  = inr [("node1.example.org", ["1.2.3.4"; "5.6.7.8"], "A", 0%Z)].
Proof. vm_compute. reflexivity. Qed.

Example row_external_and_internal :
  summaries (runRow [] "" [] both) = inr [("node1", ["1.2.3.4"], "A", 0%Z)].
Proof. vm_compute. reflexivity. Qed.

Example row_internal_only :
  summaries (runRow [] "" [] internalOnly) = inr [("node1", ["2.3.4.5"], "A", 0%Z)].
Proof. vm_compute. reflexivity. Qed.

Example row_no_address :
  runRow [] "" [] bare = inl (AddressUnavailableError "node1").
Proof. vm_compute. reflexivity. Qed.

Example row_annotation_filter_matching :
  summaries (runRow [InSet externalTraffic ["Global"; "OnlyLocal"]] "" []
               (node1 {[ externalTraffic := "OnlyLocal" ]}))
  = inr [("node1", ["1.2.3.4"], "A", 0%Z)].
Proof. vm_compute. reflexivity. Qed.

Example row_annotation_filter_not_matching :
  runRow [InSet externalTraffic ["Global"; "OnlyLocal"]] "" []
    (node1 {[ externalTraffic := "SomethingElse" ]})
  = inr [].
Proof. vm_compute. reflexivity. Qed.

Example row_our_controller :
  summaries (runRow [] "" []
               (node1 {[ controllerAnnotationKey := controllerAnnotationValue ]}))
  = inr [("node1", ["1.2.3.4"], "A", 0%Z)].
Proof. vm_compute. reflexivity. Qed.

Example row_other_controller :
  runRow [] "" [] (node1 {[ controllerAnnotationKey := "not-dns-controller" ]})
  = inr [].
Proof. vm_compute. reflexivity. Qed.

Example row_ttl_absent :
  ttls (runRow [] "" [] (node1 ∅)) = Some [mkTTL 0 false].
Proof. vm_compute. reflexivity. Qed.

Example row_ttl_invalid :
  ttls (runRow [] "" [] (node1 (ttl "foo"))) = Some [mkTTL 0 false].
Proof. vm_compute. reflexivity. Qed.

Example row_ttl_valid :
  ttls (runRow [] "" [] (node1 (ttl "10"))) = Some [mkTTL 10 true].
Proof. vm_compute. reflexivity. Qed.

Example row_nil_labels :
  ∃ e, runRow [] "" [] (testNode "node1" [mkAddr NodeExternalIP "1.2.3.4"] None ∅)
       = inr [e] ∧ Labels e = ∅.
Proof. eexists. split; vm_compute; reflexivity. Qed.

Example row_label_selector_matching :
  summaries (runRow [] "" [Equals "node-label" "include"]
               (testNode "node1" [mkAddr NodeExternalIP "1.2.3.4"]
                  (Some {[ "node-label" := "include" ]}) ∅))
  = inr [("node1", ["1.2.3.4"], "A", 0%Z)].
Proof. vm_compute. reflexivity. Qed.

Example row_label_selector_not_matching :
  runRow [] "" [Equals "node-label" "include"]
    (testNode "node1" [mkAddr NodeExternalIP "1.2.3.4"]
       (Some {[ "node-label" := "exclude" ]}) ∅)
  = inr [].
Proof. vm_compute. reflexivity. Qed.

(** A node another controller owns is skipped before its addresses are
    looked at: without any address it does not fail the call. *)
Example skipped_node_without_address :
  nodeSource_Endpoints (Upstream := string) emptySource (inr [unowned_bare; both])
  = nodeSource_Endpoints emptySource (inr [both]).
Proof. vm_compute. reflexivity. Qed.

End NodeInstances.

(** * The decorator around the node source *)
Section Pipeline.
Import endpoint source node props node_fixtures.
Local Open Scope string_scope.
#[local] Existing Instance upstreamReserved.
#[local] Existing Instance fragmentEngine.

(** Registration through any number of decorators lands once in the
    registration list of the node source. *)
Lemma nodeSource_registration {Upstream Ctx Handler : Type} n (ns : nodeSource)
  (ctx : Ctx) (f : Handler) (st : State (NodeWorld Upstream Handler)) :
  AddEventHandler
    (decorated n (nodeSource_asSource (Ctx := Ctx) ns)) ctx f st
  = Some (tt, mkState (heap st)
                (mkWorld (cache (world st)) (registrations (world st) ++ [f]))).
Proof. induction n as [|n IH]; [reflexivity|exact IH]. Qed.

(** A cache with a dual-stack node and an IPv6-only node: the node source
    yields two endpoints, the decorator around it one, with the IPv4
    address only. *)
Example dual_stack_pipeline :
  let dual := testNode "dual"
                [mkAddr NodeExternalIP "1.2.3.4"; mkAddr NodeExternalIP "2001:db8::1"]
                (Some ∅) ∅ in
  let v6 := testNode "v6" [mkAddr NodeExternalIP "2001:db8::2"] (Some ∅) ∅ in
  let st : State (NodeWorld string nat) :=
    mkState ∅ (mkWorld (inr [dual; v6]) []) in
  ∃ ps st2,
    Endpoints (NewSuppressIPv6Source (nodeSource_asSource (Ctx := unit) emptySource))
      tt st = Some ((ps, None), st2) ∧
    deref_all st2 ps
    = Some [{| DNSName := "dual"; Targets := ["1.2.3.4"]; RecordType := "A";
               RecordTTL := mkTTL 0 false; Labels := ∅ |}].
Proof. eexists _, _. split; vm_compute; reflexivity. Qed.

End Pipeline.

(** * Further properties of the decorator *)
Section MoreLoopFacts.
Import endpoint source props more.
Context {W : Type}.
Implicit Types (st : State W) (ps : list loc) (es : list Endpoint).

Lemma getIp4Targets_nil_iff targets :
  getIp4Targets targets = [] ↔ Forall (fun t => isIPv4 t = false) targets.
Proof.
  rewrite getIp4Targets_filter. induction targets as [|t targets IH].
  - split; [constructor|reflexivity].
  - rewrite filter_cons. destruct (decide (isIPv4 t = true)) as [Ht|Ht].
    + split; [discriminate|]. intros Hall. inversion Hall; congruence.
    + rewrite IH. apply not_true_is_false in Ht. split.
      * intros Hall. constructor; assumption.
      * intros Hall. inversion Hall; assumption.
Qed.

Lemma getIp4Targets_id_iff targets :
  getIp4Targets targets = targets ↔ Forall (fun t => isIPv4 t = true) targets.
Proof.
  rewrite getIp4Targets_filter. split.
  - intros Hid. rewrite <- Hid. apply Forall_forall.
    intros t [Ht _]%list_elem_of_filter. exact Ht.
  - induction 1 as [|t targets Ht _ IH]; [reflexivity|].
    rewrite filter_cons, decide_True by exact Ht. f_equal. exact IH.
Qed.

(** One iteration of the loop, with the monad unfolded. *)
Lemma suppress_loop_cons p ps results st :
  suppress_loop (p :: ps) results st =
  match heap st !! p with
  | None => None
  | Some e =>
      if (0 <? length (getIp4Targets (Targets e)))%nat then
        let q := fresh (dom (heap st)) in
        suppress_loop ps (results ++ [q])
          (mkState (<[q := set_Targets (getIp4Targets (Targets e)) e]> (heap st))
                   (world st))
      else suppress_loop ps results st
  end.
Proof.
  cbn [suppress_loop]. unfold bind at 1. unfold load.
  destruct (heap st !! p) as [e|]; [|reflexivity].
  destruct (0 <? length (getIp4Targets (Targets e)))%nat; [|reflexivity].
  unfold bind, new, modify. cbn.
  rewrite lookup_insert_eq, insert_insert_eq. reflexivity.
Qed.

(** A pass that returns has dereferenced every pointer it was given, and
    the store it leaves holds exactly the structs it found and those it
    returns in addition. *)
Lemma suppress_loop_footprint ps : ∀ results st res st',
  suppress_loop ps results st = Some (res, st') →
  ∃ news, res = results ++ news ∧
          is_Some (deref_all st' ps) ∧
          heap st ⊆ heap st' ∧
          dom (heap st') = dom (heap st) ∪ list_to_set news ∧
          size (heap st') = (size (heap st) + length news)%nat.
Proof.
  induction ps as [|p ps IH]; intros results st res st' Hrun.
  - injection Hrun as <- <-. exists []. rewrite app_nil_r. simpl.
    repeat split; eauto. rewrite (right_id_L ∅ (∪)). reflexivity.
  - rewrite suppress_loop_cons in Hrun.
    destruct (heap st !! p) as [e|] eqn:Hp; [|discriminate].
    destruct (0 <? length (getIp4Targets (Targets e)))%nat.
    + pose proof (is_fresh (dom (heap st))) as Hfresh.
      apply not_elem_of_dom in Hfresh. cbv zeta in Hrun.
      set (q := fresh (dom (heap st))) in *.
      apply IH in Hrun as (news & -> & [es Hes] & Hsub & Hdom & Hsize).
      simpl in Hsub, Hdom, Hsize.
      assert (Hsub0 : heap st ⊆ heap st')
        by (etrans; [apply insert_subseteq, Hfresh|exact Hsub]).
      exists (q :: news). rewrite <- app_assoc. split; [reflexivity|].
      split; [|split; [exact Hsub0|split]].
      * exists (e :: es). apply deref_all_Forall2. constructor.
        -- exact (lookup_weaken _ _ _ _ Hp Hsub0).
        -- apply deref_all_Forall2, Hes.
      * rewrite Hdom, dom_insert_L, list_to_set_cons.
        rewrite (comm_L (∪) {[q]} (dom (heap st))), (assoc_L (∪)). reflexivity.
      * rewrite Hsize, map_size_insert_None by exact Hfresh. simpl. lia.
    + apply IH in Hrun as (news & -> & [es Hes] & Hsub & Hdom & Hsize).
      exists news. split; [reflexivity|]. split; [|auto].
      exists (e :: es). apply deref_all_Forall2. constructor.
      * exact (lookup_weaken _ _ _ _ Hp Hsub).
      * apply deref_all_Forall2, Hes.
Qed.

Lemma omap_suppressed_none es :
  Forall (fun e => Forall (fun t => isIPv4 t = false) (Targets e)) es →
  omap suppressed es = [].
Proof.
  induction 1 as [|e es He _ IH]; [reflexivity|].
  cbn [omap list_omap].
  apply getIp4Targets_nil_iff, suppressed_None in He. rewrite He. exact IH.
Qed.

Lemma omap_suppressed_all es :
  Forall (fun e => Targets e ≠ [] ∧ Forall (fun t => isIPv4 t = true) (Targets e)) es →
  omap suppressed es = es.
Proof.
  intros Hall. apply omap_suppressed_fixed.
  eapply Forall_impl; [exact Hall|]. intros e [Hne Hv4].
  apply getIp4Targets_id_iff in Hv4. apply suppressed_Some.
  rewrite Hv4. split; [exact Hne|]. destruct e; reflexivity.
Qed.

End MoreLoopFacts.

Section MoreDecoratorFacts.
Import endpoint source props more.
Context {Ctx Handler Err W : Type}.
Implicit Types (s : Source Ctx Handler Err W) (st : State W).

Lemma Endpoints_run_values s ctx st ps st1 es :
  Endpoints s ctx st = Some ((ps, None), st1) →
  deref_all st1 ps = Some es →
  ∃ results st2,
    Endpoints (NewSuppressIPv6Source s) ctx st = Some ((results, None), st2) ∧
    world st2 = world st1 ∧
    heap st1 ⊆ heap st2 ∧
    deref_all st2 results = Some (omap suppressed es).
Proof.
  intros Hup Hes. rewrite Endpoints_unfold, Hup.
  destruct (suppress_loop_run ps [] st1 es Hes)
    as (news & st2 & Hloop & Hw & Hh & _ & _ & Hd).
  rewrite Hloop. simpl. exists news, st2. repeat split; auto.
Qed.

(** What two decorators show is what one shows. *)
Lemma observe_twice s ctx st :
  observe (Endpoints (NewSuppressIPv6Source (NewSuppressIPv6Source s)) ctx st)
  = observe (Endpoints (NewSuppressIPv6Source s) ctx st).
Proof.
  rewrite (Endpoints_unfold (NewSuppressIPv6Source s)).
  destruct (Endpoints (NewSuppressIPv6Source s) ctx st)
    as [[[r1 [err|]] s1]|] eqn:Hone; [reflexivity| |reflexivity].
  rewrite Endpoints_unfold in Hone.
  destruct (Endpoints s ctx st) as [[[ps [err|]] st1]|]; try discriminate.
  destruct (suppress_loop ps [] st1) as [[r s1']|] eqn:Hloop; [|discriminate].
  injection Hone as -> ->.
  apply suppress_loop_inv in Hloop as (news & outs & -> & _ & _ & Hd & Hfix).
  simpl in *.
  destruct (suppress_loop_run news [] s1 outs Hd)
    as (news2 & s2 & Hloop2 & Hw2 & _ & _ & _ & Hd2).
  rewrite Hloop2. simpl.
  rewrite Hd, Hd2, (omap_suppressed_fixed _ Hfix), Hw2. reflexivity.
Qed.

(** The target filter on whole lists: it distributes over concatenation,
    returns its argument exactly when every entry passes the IPv4 test, and
    returns the empty list exactly when none does. *)
Theorem X1_getIp4Targets_algebra :
  (∀ l1 l2, getIp4Targets (l1 ++ l2) = getIp4Targets l1 ++ getIp4Targets l2) ∧
  (∀ l, getIp4Targets l = l ↔ Forall (fun t => isIPv4 t = true) l) ∧
  (∀ l, getIp4Targets l = [] ↔ Forall (fun t => isIPv4 t = false) l).
Proof.
  split; [|split].
  - intros l1 l2. rewrite !getIp4Targets_filter. apply filter_app.
  - exact getIp4Targets_id_iff.
  - exact getIp4Targets_nil_iff.
Qed.

(** The decorator has no error of its own: when it returns an error, the
    wrapped source returned that error, with the same slice and state. *)
Theorem X2_errors_are_upstream s ctx st r e st2
  (Hrun : Endpoints (NewSuppressIPv6Source s) ctx st = Some ((r, Some e), st2)) :
  Endpoints s ctx st = Some ((r, Some e), st2).
Proof.
  rewrite Endpoints_unfold in Hrun.
  destruct (Endpoints s ctx st) as [[[ps [err|]] st1]|]; try discriminate.
  - exact Hrun.
  - destruct (suppress_loop ps [] st1) as [[? ?]|]; discriminate.
Qed.

(** On an upstream answer in which every endpoint has at least one target
    and only IPv4 targets, the decorator returns the same structs in the
    same order (as new copies). *)
Theorem X3_IPv4_only_passes_through s ctx st ps st1 es
  (Hup : Endpoints s ctx st = Some ((ps, None), st1))
  (Hes : deref_all st1 ps = Some es)
  (Hv4 : Forall (fun e => Targets e ≠ [] ∧
                          Forall (fun t => isIPv4 t = true) (Targets e)) es) :
  ∃ results st2,
    Endpoints (NewSuppressIPv6Source s) ctx st = Some ((results, None), st2) ∧
    deref_all st2 results = Some es ∧
    length results = length ps.
Proof.
  destruct (Endpoints_run_values s ctx st ps st1 es Hup Hes)
    as (results & st2 & Hrun & _ & _ & Hd).
  rewrite omap_suppressed_all in Hd by exact Hv4.
  exists results, st2. split; [exact Hrun|]. split; [exact Hd|].
  apply deref_all_Forall2, Forall2_length in Hd, Hes. congruence.
Qed.

(** When no target of any upstream endpoint passes the IPv4 test (in
    particular when the upstream slice is empty), the decorator returns the
    empty slice without error and allocates nothing: the state is the one
    the wrapped source left. *)
Theorem X4_nothing_survives s ctx st ps st1 es
  (Hup : Endpoints s ctx st = Some ((ps, None), st1))
  (Hes : deref_all st1 ps = Some es)
  (Hnone : Forall (fun e => Forall (fun t => isIPv4 t = false) (Targets e)) es) :
  Endpoints (NewSuppressIPv6Source s) ctx st = Some (([], None), st1).
Proof.
  rewrite Endpoints_unfold, Hup.
  destruct (suppress_loop_run ps [] st1 es Hes)
    as (news & st2 & Hloop & Hw & Hh & _ & _ & Hd).
  rewrite Hloop.
  rewrite omap_suppressed_none in Hd by exact Hnone.
  apply deref_all_Forall2 in Hd. inversion Hd; subst.
  apply suppress_loop_footprint in Hloop as (news & Hnews & _ & _ & Hdom & _).
  simpl in Hnews. subst news.
  assert (Hheap : heap st2 = heap st1).
  { symmetry. apply subseteq_dom_eq; [exact Hh|]. rewrite Hdom. simpl.
    rewrite (right_id_L ∅ (∪)). reflexivity. }
  destruct st1 as [h1 w1], st2 as [h2 w2]. simpl in *. subst. reflexivity.
Qed.

(** The decorator allocates exactly the structs it returns: after the call
    the store holds the addresses it held when the wrapped source returned
    and the returned ones, one struct more for each returned pointer. *)
Theorem X5_store_footprint s ctx st ps st1 es
  (Hup : Endpoints s ctx st = Some ((ps, None), st1))
  (Hes : deref_all st1 ps = Some es) :
  ∃ results st2,
    Endpoints (NewSuppressIPv6Source s) ctx st = Some ((results, None), st2) ∧
    dom (heap st2) = dom (heap st1) ∪ list_to_set results ∧
    size (heap st2) = (size (heap st1) + length results)%nat ∧
    length results = length (filter (fun e => getIp4Targets (Targets e) ≠ []) es).
Proof.
  destruct (Endpoints_run s ctx st ps st1 es Hup Hes)
    as (results & st2 & outs & Hrun & _ & _ & _ & _ & Hd & Hall).
  exists results, st2. split; [exact Hrun|].
  rewrite Endpoints_unfold, Hup in Hrun.
  destruct (suppress_loop ps [] st1) as [[r s2]|] eqn:Hloop; [|discriminate].
  injection Hrun as -> ->.
  apply suppress_loop_footprint in Hloop as (news & Hnews & _ & _ & Hdom & Hsize).
  simpl in Hnews. subst news. split; [exact Hdom|]. split; [exact Hsize|].
  apply deref_all_Forall2, Forall2_length in Hd.
  apply Forall2_length in Hall. congruence.
Qed.

(** Endpoints are handled one after the other and independently: the loop
    over a concatenated slice is the loop over the first part followed by
    the loop over the second part, started on the results and the store
    the first left; it panics when one of the two does. *)
Theorem X6_loop_composes (ps1 ps2 results : list loc) st :
  suppress_loop (ps1 ++ ps2) results st =
  match suppress_loop ps1 results st with
  | Some (r, st') => suppress_loop ps2 r st'
  | None => None
  end.
Proof.
  revert results st.
  induction ps1 as [|p ps1 IH]; intros results st; [reflexivity|].
  cbn [app]. rewrite !suppress_loop_cons.
  destruct (heap st !! p) as [e|]; [|reflexivity].
  destruct (0 <? length (getIp4Targets (Targets e)))%nat; cbv zeta; apply IH.
Qed.

Lemma decorated_error n s ctx st ps e st1 :
  Endpoints s ctx st = Some ((ps, Some e), st1) →
  Endpoints (decorated n s) ctx st = Some ((ps, Some e), st1).
Proof.
  intros Hup. induction n as [|n IH]; [exact Hup|].
  cbn [decorated]. rewrite Endpoints_unfold, IH. reflexivity.
Qed.

Lemma decorated_run n s ctx st ps st1 es :
  Endpoints s ctx st = Some ((ps, None), st1) →
  deref_all st1 ps = Some es →
  ∃ results st2 vs,
    Endpoints (decorated n s) ctx st = Some ((results, None), st2) ∧
    world st2 = world st1 ∧
    heap st1 ⊆ heap st2 ∧
    deref_all st2 results = Some vs.
Proof.
  intros Hup Hes. induction n as [|n (results & st2 & vs & Hrun & Hw & Hh & Hd)].
  - exists ps, st1, es. repeat split; auto.
  - destruct (Endpoints_run_values (decorated n s) ctx st results st2 vs Hrun Hd)
      as (results' & st3 & Hrun' & Hw' & Hh' & Hd').
    exists results', st3, (omap suppressed vs).
    split; [exact Hrun'|]. split; [congruence|]. split; [etrans; eassumption|].
    exact Hd'.
Qed.

(** One decorator or several: from any state and around any source, n+1
    nested decorators panic exactly when one does and otherwise show the
    same error, the same endpoint structs in the same order and the same
    state outside the store. *)
Theorem X8_any_depth_is_one n s ctx st :
  observe (Endpoints (decorated (S n) s) ctx st)
  = observe (Endpoints (NewSuppressIPv6Source s) ctx st).
Proof.
  induction n as [|n IH]; [reflexivity|].
  rewrite <- IH. cbn [decorated]. apply observe_twice.
Qed.

(** A panic of the wrapped source is a panic of the decorator, and so is a
    nil pointer at the head of a slice returned without error: the
    decorator dereferences it unchecked. *)
Theorem X9_panics s ctx st :
  (Endpoints s ctx st = None →
   Endpoints (NewSuppressIPv6Source s) ctx st = None) ∧
  (∀ p ps st1,
     Endpoints s ctx st = Some ((p :: ps, None), st1) →
     heap st1 !! p = None →
     Endpoints (NewSuppressIPv6Source s) ctx st = None).
Proof.
  split.
  - intros Hup. rewrite Endpoints_unfold, Hup. reflexivity.
  - intros p ps st1 Hup Hnil.
    rewrite Endpoints_unfold, Hup, suppress_loop_cons, Hnil. reflexivity.
Qed.


End MoreDecoratorFacts.

Section MoreChainFacts.
Import endpoint source props more.
Context {Ctx Handler Err : Type}.

(** Through any number of decorators the base source's [Endpoints] is
    called exactly once, with the caller's context: a base that records the
    contexts it is called with has recorded one more, the caller's, when
    the outermost call returns. *)
Theorem X7_base_called_once n (ps : list loc) (err : option Err) (ctx : Ctx)
  (st : State (list Ctx))
  (Hes : err = None → is_Some (deref_all st ps)) :
  ∃ r after,
    Endpoints (decorated n (countingSource (Handler := Handler) ps err)) ctx st
    = Some (r, after) ∧
    world after = world st ++ [ctx].
Proof.
  destruct err as [e|].
  - eexists _, _. split; [apply decorated_error; reflexivity|reflexivity].
  - destruct (Hes eq_refl) as [es Hd].
    destruct (decorated_run n (countingSource (Handler := Handler) (Err := Err) ps None)
                ctx st ps (mkState (heap st) (world st ++ [ctx])) es eq_refl Hd)
      as (results & after & vs & Hrun & Hw & _).
    exists (results, None), after. split; [exact Hrun|exact Hw].
Qed.

End MoreChainFacts.

(** * Further properties of the address test *)
Section MoreNetFacts.
Import Net source props more.
Local Open Scope Z_scope.

Lemma length_zero_empty s : (String.length s =? 0)%nat = true → s = EmptyString.
Proof. destruct s; [reflexivity|discriminate]. Qed.

Lemma char_at_is_sdrop s : ∀ n c, char_at_is s n c = char_at_is (sdrop n s) 0 c.
Proof.
  induction s as [|ch s IH]; intros [|n] c; try reflexivity.
  unfold char_at_is in *. simpl. apply IH.
Qed.

Lemma sdrop_sdrop s : ∀ n m, sdrop n (sdrop m s) = sdrop (m + n) s.
Proof.
  induction s as [|ch s IH]; intros n [|m]; simpl; try reflexivity.
  - destruct n; reflexivity.
  - apply IH.
Qed.

Lemma sdrop_lift P s ch :
  char_at_is s 0 ch = true → P ch = true →
  string_forall P (sdrop 1 s) = true → string_forall P s = true.
Proof.
  destruct s as [|c s]; [discriminate|]. unfold char_at_is; simpl.
  intros Hc%Ascii.eqb_eq HP Hs. subst. rewrite HP, Hs. reflexivity.
Qed.

(** What [dtoi] consumes are decimal digits. *)
Lemma dtoi_loop_lift P s : ∀ n i n' c,
  dtoi_loop s n i = (n', c, true) →
  (∀ ch, isDigit ch = true → P ch = true) →
  string_forall P (sdrop (c - i) s) = true → string_forall P s = true.
Proof.
  induction s as [|ch s IH]; intros n i n' c Hd HP; [reflexivity|].
  pose proof (dtoi_loop_firstSep _ _ _ _ _ Hd) as (Hle & _).
  simpl in Hd. destruct (between "0" "9" ch) eqn:Ed.
  - destruct (big <=? _); [discriminate|].
    pose proof (dtoi_loop_firstSep _ _ _ _ _ Hd) as (Hle' & _).
    replace (c - i)%nat with (S (c - S i)) by lia. simpl.
    intros Hs. rewrite (HP _ Ed). simpl. eapply IH; eassumption.
  - destruct (i =? 0)%nat; [discriminate|]. injection Hd as <- <-.
    rewrite Nat.sub_diag. simpl. auto.
Qed.

(** What [xtoi] consumes are hexadecimal digits. *)
Lemma xtoi_loop_lift P s : ∀ n i n' c,
  xtoi_loop s n i = (n', c, true) →
  (∀ ch, isHexDigit ch = true → P ch = true) →
  (i <= c)%nat ∧
  (string_forall P (sdrop (c - i) s) = true → string_forall P s = true).
Proof.
  induction s as [|ch s IH]; intros n i n' c Hx HP.
  - simpl in Hx. destruct (i =? 0)%nat; [discriminate|].
    injection Hx as <- <-. split; [lia|reflexivity].
  - simpl in Hx.
    assert (Hstep : ∀ m, isHexDigit ch = true →
              (if big <=? m then (0, i, false) else xtoi_loop s m (S i))
              = (n', c, true) →
              (i <= c)%nat ∧
              (string_forall P (sdrop (c - i) (String ch s)) = true →
               string_forall P (String ch s) = true)).
    { intros m Hh Hm. destruct (big <=? m); [discriminate|].
      destruct (IH _ _ _ _ Hm HP) as [Hle Hs]. split; [lia|].
      replace (c - i)%nat with (S (c - S i)) by lia. simpl.
      intros Hrest. rewrite (HP _ Hh), (Hs Hrest). reflexivity. }
    unfold isHexDigit in Hstep.
    destruct (between "0" "9" ch) eqn:E1; [apply (Hstep _ eq_refl Hx)|].
    destruct (between "a" "f" ch) eqn:E2; [apply (Hstep _ eq_refl Hx)|].
    destruct (between "A" "F" ch) eqn:E3; [apply (Hstep _ eq_refl Hx)|].
    destruct (i =? 0)%nat; [discriminate|]. injection Hx as <- <-.
    rewrite Nat.sub_diag. split; [lia|auto].
Qed.

(** What the dotted-decimal loop consumes are digits and dots. *)
Lemma parseIPv4_loop_lift P k : ∀ i s p p' rest,
  parseIPv4_loop k i s p = Some (p', rest) →
  (∀ ch, isDigitOrDot ch = true → P ch = true) →
  string_forall P rest = true → string_forall P s = true.
Proof.
  induction k as [|k IH]; intros i s p p' rest Hloop HP Hrest.
  - injection Hloop as <- <-. exact Hrest.
  - cbn [parseIPv4_loop] in Hloop.
    destruct (String.length s =? 0)%nat; [discriminate|].
    assert (Hdig : ∀ ch, isDigit ch = true → P ch = true).
    { intros ch Hch. apply HP. unfold isDigitOrDot. rewrite Hch. reflexivity. }
    assert (Hbody : ∀ s1,
      (let '(n, c, ok) := dtoi s1 in
       if negb ok || (0xFF <? n) then None
       else if (1 <? c)%nat && char_at_is s1 0 "0" then None
       else parseIPv4_loop k (S i) (sdrop c s1) (<[i := n mod 256]> p))
      = Some (p', rest) → string_forall P s1 = true).
    { intros s1 Hb. destruct (dtoi s1) as [[n c] ok] eqn:Hd.
      destruct ok; [|discriminate]. cbn [negb orb] in Hb.
      destruct (0xFF <? n); [discriminate|].
      destruct ((1 <? c)%nat && char_at_is s1 0 "0"); [discriminate|].
      eapply IH in Hb; [|exact HP|exact Hrest].
      eapply dtoi_loop_lift; [exact Hd|exact Hdig|].
      rewrite Nat.sub_0_r. exact Hb. }
    destruct (0 <? i)%nat.
    + destruct (char_at_is s 0 ".") eqn:Hdot; [|discriminate].
      apply Hbody in Hloop. eapply sdrop_lift; [exact Hdot| |exact Hloop].
      apply HP. reflexivity.
    + apply Hbody. exact Hloop.
Qed.

Lemma parseIPv4_chars s ip :
  parseIPv4 s = Some ip → string_forall isDigitOrDot s = true.
Proof.
  unfold parseIPv4. intros H.
  destruct (parseIPv4_loop IPv4len 0 s [0; 0; 0; 0]) as [[p rest]|] eqn:Hloop;
    [|discriminate].
  eapply parseIPv4_loop_lift; [exact Hloop|auto|].
  repeat (case_match; try discriminate).
  match goal with
  | Hz : (String.length rest =? 0)%nat = true |- _ =>
      apply length_zero_empty in Hz; subst; reflexivity
  end.
Qed.

Lemma digitOrDot_address ch : isDigitOrDot ch = true → isAddressChar ch = true.
Proof.
  unfold isDigitOrDot, isAddressChar, isHexDigit, isDigit.
  destruct (between "0" "9" ch); [reflexivity|]. simpl.
  intros ->. apply orb_true_iff. left. apply orb_true_r.
Qed.

Lemma string_forall_impl (P Q : ascii → bool) s :
  (∀ ch, P ch = true → Q ch = true) →
  string_forall P s = true → string_forall Q s = true.
Proof.
  intros HPQ. induction s as [|c s IH]; [reflexivity|]. simpl.
  intros [Hc Hs]%andb_prop. rewrite (HPQ _ Hc), (IH Hs). reflexivity.
Qed.

(** What the IPv6 loop consumes are hexadecimal digits, colons and, in a
    trailing IPv4 part, digits and dots. *)
Lemma parseIPv6_loop_lift P fuel : ∀ i s ellipsis ip st,
  parseIPv6_loop fuel i s ellipsis ip = Some st →
  (∀ ch, isAddressChar ch = true → P ch = true) →
  string_forall P (v6_s st) = true → string_forall P s = true.
Proof.
  assert (Hcolon : isAddressChar ":" = true) by reflexivity.
  induction fuel as [|fuel IH]; intros i s el ip st Hloop HP Hrest;
    cbn [parseIPv6_loop] in Hloop.
  - destruct (negb (i <? IPv6len)); injection Hloop as <-; exact Hrest.
  - destruct (negb (i <? IPv6len)); [injection Hloop as <-; exact Hrest|].
    destruct (xtoi s) as [[n c] ok] eqn:Hx.
    destruct ok; [|discriminate]. cbn [negb orb] in Hloop.
    destruct (0xFFFF <? n); [discriminate|].
    destruct (char_at_is s c ".").
    + destruct ((el <? 0) && negb (i =? IPv6len - Z.of_nat IPv4len));
        [discriminate|].
      destruct (IPv6len <? i + Z.of_nat IPv4len); [discriminate|].
      destruct (parseIPv4 s) as [ip4|] eqn:Hv4; [|discriminate].
      apply parseIPv4_chars in Hv4.
      eapply string_forall_impl; [|exact Hv4].
      intros ch Hch. apply HP, digitOrDot_address, Hch.
    + assert (Hhex : ∀ ch, isHexDigit ch = true → P ch = true).
      { intros ch Hch. apply HP. unfold isAddressChar. rewrite Hch. reflexivity. }
      destruct (xtoi_loop_lift P _ _ _ _ _ Hx Hhex) as [_ Hs].
      rewrite Nat.sub_0_r in Hs. apply Hs. clear Hs Hx.
      set (s1 := sdrop c s) in *.
      destruct (String.length s1 =? 0)%nat; [injection Hloop as <-; exact Hrest|].
      destruct (char_at_is s1 0 ":") eqn:Hc1; [|discriminate].
      cbn [negb orb] in Hloop.
      destruct (String.length s1 =? 1)%nat; [discriminate|].
      eapply sdrop_lift; [exact Hc1|apply HP, Hcolon|].
      set (s2 := sdrop 1 s1) in *.
      destruct (char_at_is s2 0 ":") eqn:Hc2.
      * destruct (0 <=? el); [discriminate|].
        eapply sdrop_lift; [exact Hc2|apply HP, Hcolon|].
        destruct (String.length (sdrop 1 s2) =? 0)%nat;
          [injection Hloop as <-; exact Hrest|].
        eapply IH; eassumption.
      * eapply IH; eassumption.
Qed.

Lemma parseIPv6_loop_chars fuel i s ellipsis ip st :
  parseIPv6_loop fuel i s ellipsis ip = Some st →
  (String.length (v6_s st) =? 0)%nat = true →
  string_forall isAddressChar s = true.
Proof.
  intros Hl Hz%length_zero_empty. eapply parseIPv6_loop_lift; [exact Hl|auto|].
  rewrite Hz. reflexivity.
Qed.

Lemma parseIPv6_chars s ip :
  parseIPv6 s = Some ip → string_forall isAddressChar s = true.
Proof.
  unfold parseIPv6. intros H.
  destruct (char_at_is s 0 ":" && char_at_is s 1 ":") eqn:Hlead.
  - apply andb_prop in Hlead as [H0 H1]. rewrite char_at_is_sdrop in H1.
    eapply sdrop_lift; [exact H0|reflexivity|].
    eapply sdrop_lift; [exact H1|reflexivity|].
    rewrite sdrop_sdrop. cbn [Nat.add andb] in *.
    destruct (String.length (sdrop 2 s) =? 0)%nat eqn:Hz.
    + apply length_zero_empty in Hz. rewrite Hz. reflexivity.
    + destruct (parseIPv6_loop 8 0 (sdrop 2 s) 0 (replicate (Z.to_nat IPv6len) 0))
        as [[i s' el ip']|] eqn:Hl; [|discriminate].
      destruct (String.length s' =? 0)%nat eqn:Hz'; [|discriminate].
      eapply parseIPv6_loop_chars; [exact Hl|exact Hz'].
  - cbn [andb] in H.
    destruct (parseIPv6_loop 8 0 s (-1) (replicate (Z.to_nat IPv6len) 0))
      as [[i s' el ip']|] eqn:Hl; [|discriminate].
    destruct (String.length s' =? 0)%nat eqn:Hz'; [|discriminate].
    eapply parseIPv6_loop_chars; [exact Hl|exact Hz'].
Qed.

Lemma firstSep_Colon_has_colon t :
  firstSep t = Some Colon → string_forall notColon t = false.
Proof.
  induction t as [|c t IH]; [discriminate|]. cbn [firstSep string_forall].
  unfold notColon at 1. destruct (Ascii.eqb c ".") eqn:Hdot; [discriminate|].
  destruct (Ascii.eqb c ":"); [reflexivity|].
  intros Hsep. rewrite (IH Hsep). reflexivity.
Qed.

(** The shape of a text that passes the test of [getIp4Targets]. *)
Lemma isIPv4_shape t :
  isIPv4 t = true →
  firstSep t ≠ None ∧
  string_forall isAddressChar t = true ∧
  (firstSep t = Some Dot → string_forall isDigitOrDot t = true) ∧
  (string_forall notColon t = true →
   firstSep t = Some Dot ∧ string_forall isDigitOrDot t = true).
Proof.
  unfold isIPv4. rewrite ParseIP_firstSep.
  destruct (firstSep t) as [[]|] eqn:Hsep; [| |discriminate].
  - destruct (parseIPv4 t) as [ip|] eqn:Hip; [|discriminate]. intros _.
    apply parseIPv4_chars in Hip. split; [discriminate|].
    split; [|split; [intros _; exact Hip|intros _; split; [reflexivity|exact Hip]]].
    eapply string_forall_impl; [apply digitOrDot_address|exact Hip].
  - destruct (parseIPv6 t) as [ip|] eqn:Hip; [|discriminate]. intros _.
    apply parseIPv6_chars in Hip. split; [discriminate|].
    split; [exact Hip|]. split; [discriminate|].
    intros Hno. rewrite (firstSep_Colon_has_colon _ Hsep) in Hno. discriminate.
Qed.

(** A target the filter keeps is an entry of the input that contains a dot
    or a colon and is made of hexadecimal digits, dots and colons only; if
    its first separator is a dot, or it has no colon at all, it is made of
    decimal digits and dots only and has a dot.  So an entry is dropped
    when it has a byte outside that set, when it has neither dot nor
    colon, and when it has no colon, or a dot before its first colon, and
    a byte that is neither a decimal digit nor a dot. *)
Theorem X11_kept_targets_charset (l : list string) (t : string)
  (Hin : t ∈ getIp4Targets l) :
  t ∈ l ∧
  firstSep t ≠ None ∧
  string_forall isAddressChar t = true ∧
  (firstSep t = Some Dot → string_forall isDigitOrDot t = true) ∧
  (string_forall notColon t = true →
   firstSep t = Some Dot ∧ string_forall isDigitOrDot t = true).
Proof.
  rewrite getIp4Targets_filter in Hin.
  apply list_elem_of_filter in Hin as [Hv4 Hl]. split; [exact Hl|].
  apply isIPv4_shape, Hv4.
Qed.

(** The dropped entries, in the direction a user reads it. *)
Lemma getIp4Targets_drops (l : list string) (t : string) :
  (string_forall isAddressChar t = false → t ∉ getIp4Targets l) ∧
  (firstSep t = None → t ∉ getIp4Targets l) ∧
  (string_forall notColon t = true → string_forall isDigitOrDot t = false →
   t ∉ getIp4Targets l) ∧
  (firstSep t = Some Dot → string_forall isDigitOrDot t = false →
   t ∉ getIp4Targets l).
Proof.
  assert (Hkept : t ∈ getIp4Targets l → isIPv4 t = true).
  { rewrite getIp4Targets_filter. intros [Hv4 _]%list_elem_of_filter. exact Hv4. }
  split; [|split; [|split]].
  - intros Hbad Hin. apply Hkept, isIPv4_shape in Hin as (_ & Hok & _). congruence.
  - intros Hnone Hin. apply Hkept, isIPv4_shape in Hin as (Hsome & _).
    exact (Hsome Hnone).
  - intros Hno Hbad Hin. apply Hkept, isIPv4_shape in Hin as (_ & _ & _ & Hd).
    destruct (Hd Hno) as [_ Hok]. congruence.
  - intros Hdot Hbad Hin. apply Hkept, isIPv4_shape in Hin as (_ & _ & Hd & _).
    rewrite (Hd Hdot) in Hbad. discriminate.
Qed.

End MoreNetFacts.

(** * Canonical address texts *)
Section TextFacts.
Import Net source props more.
Local Open Scope Z_scope.

Lemma digitChar_facts x :
  (x < 10)%nat →
  between "0" "9" (digitChar x) = true ∧
  byte_val (digitChar x) - byte_val "0" = Z.of_nat x ∧
  (Ascii.eqb (digitChar x) "0" = true → x = 0%nat).
Proof.
  intros Hx. do 10 (destruct x as [|x]; [repeat split; try discriminate; reflexivity|]).
  lia.
Qed.

Lemma dtoi_loop_digit x s n i :
  (x < 10)%nat → n * 10 + Z.of_nat x < big →
  dtoi_loop (String (digitChar x) s) n i = dtoi_loop s (n * 10 + Z.of_nat x) (S i).
Proof.
  intros Hx Hbig. destruct (digitChar_facts x Hx) as (Hd & Hv & _).
  cbn [dtoi_loop]. rewrite Hd, Hv.
  destruct (Z.leb_spec big (n * 10 + Z.of_nat x)); [lia|reflexivity].
Qed.

Lemma dtoi_loop_stop rest n i :
  stops_decimal rest → i ≠ 0%nat → dtoi_loop rest n i = (n, i, true).
Proof.
  intros Hrest Hi. apply Nat.eqb_neq in Hi.
  destruct rest as [|c rest]; simpl in *; [|rewrite Hrest]; rewrite Hi; reflexivity.
Qed.

Lemma append_String c s t : (String c s ++ t)%string = String c (s ++ t)%string.
Proof. reflexivity. Qed.

Lemma append_Empty t : (EmptyString ++ t)%string = t.
Proof. reflexivity. Qed.

Lemma sdrop_append s : ∀ t, sdrop (String.length s) (s ++ t)%string = t.
Proof. induction s as [|c s IH]; intros t; [destruct t; reflexivity|apply IH]. Qed.

Lemma octet_cases a :
  (a < 256)%nat →
  (a < 10 ∧ octet a = String (digitChar a) "")%nat ∨
  (10 <= a < 100 ∧
   octet a = String (digitChar (a / 10)) (String (digitChar (a mod 10)) ""))%nat ∨
  (100 <= a < 256 ∧
   octet a = String (digitChar (a / 100))
               (String (digitChar (a / 10 mod 10)) (String (digitChar (a mod 10)) "")))%nat.
Proof.
  intros Ha. unfold octet.
  destruct (Nat.ltb_spec a 10); [left; split; [lia|reflexivity]|].
  destruct (Nat.ltb_spec a 100); [right; left; split; [lia|reflexivity]|].
  right; right. split; [lia|reflexivity].
Qed.

(** [dtoi] reads back an octet written in decimal. *)
Lemma dtoi_octet a rest :
  (a < 256)%nat → stops_decimal rest →
  dtoi (octet a ++ rest) = (Z.of_nat a, String.length (octet a), true) ∧
  ((1 <? String.length (octet a))%nat && char_at_is (octet a ++ rest) 0 "0") = false ∧
  (String.length (octet a ++ rest) =? 0)%nat = false.
Proof.
  intros Ha Hrest. unfold dtoi, big.
  destruct (octet_cases a Ha) as [[Hr ->]|[[Hr ->]|[Hr ->]]];
    rewrite !append_String, append_Empty; cbn [String.length].
  - split; [|split; reflexivity].
    rewrite dtoi_loop_digit by (unfold big; lia).
    rewrite dtoi_loop_stop by first [assumption|lia]. f_equal; f_equal; lia.
  - assert (H1 : (a / 10 < 10)%nat) by (apply Nat.Div0.div_lt_upper_bound; lia).
    assert (H2 : (a mod 10 < 10)%nat) by (apply Nat.mod_upper_bound; lia).
    pose proof (Nat.div_mod_eq a 10) as Hdm.
    split; [|split; [|reflexivity]].
    + rewrite !dtoi_loop_digit by (unfold big; lia).
      rewrite dtoi_loop_stop by first [assumption|lia]. f_equal; f_equal; lia.
    + unfold char_at_is. cbn [String.get Nat.ltb Nat.leb andb].
      destruct (Ascii.eqb (digitChar (a / 10)) "0") eqn:Hz; [|reflexivity].
      apply (digitChar_facts _ H1) in Hz. lia.
  - assert (H1 : (a / 100 < 10)%nat) by (apply Nat.Div0.div_lt_upper_bound; lia).
    assert (H2 : (a / 10 mod 10 < 10)%nat) by (apply Nat.mod_upper_bound; lia).
    assert (H3 : (a mod 10 < 10)%nat) by (apply Nat.mod_upper_bound; lia).
    pose proof (Nat.div_mod_eq a 10) as Hdm.
    pose proof (Nat.div_mod_eq (a / 10) 10) as Hdm'.
    assert (Hq : (a / 10 / 10 = a / 100)%nat)
      by (rewrite Nat.Div0.div_div; reflexivity).
    split; [|split; [|reflexivity]].
    + rewrite !dtoi_loop_digit by (unfold big; lia).
      rewrite dtoi_loop_stop by first [assumption|lia]. f_equal; f_equal; lia.
    + unfold char_at_is. cbn [String.get Nat.ltb Nat.leb andb].
      destruct (Ascii.eqb (digitChar (a / 100)) "0") eqn:Hz; [|reflexivity].
      apply (digitChar_facts _ H1) in Hz.
      assert (a / 100 >= 1)%nat by (apply Nat.div_le_lower_bound; lia). lia.
Qed.

Lemma append_nil_r s : (s ++ EmptyString)%string = s.
Proof. induction s as [|c s IH]; [reflexivity|]. rewrite append_String, IH. reflexivity. Qed.

Lemma stops_decimal_dot rest : stops_decimal ("." ++ rest)%string.
Proof. reflexivity. Qed.

(** One round of the dotted-decimal loop on an octet in decimal: the first
    octet, and an octet after a dot. *)
Lemma parseIPv4_loop_first k a rest p :
  (a < 256)%nat → stops_decimal rest →
  parseIPv4_loop (S k) 0 (octet a ++ rest) p
  = parseIPv4_loop k 1 rest (<[0%nat := Z.of_nat a]> p).
Proof.
  intros Ha Hrest. destruct (dtoi_octet a rest Ha Hrest) as (Hd & Hz & Hlen).
  cbn [parseIPv4_loop]. rewrite Hlen. change (0 <? 0)%nat with false. cbv iota.
  rewrite Hd, Hz. cbn [negb orb].
  destruct (Z.ltb_spec 0xFF (Z.of_nat a)); [lia|].
  rewrite sdrop_append, Z.mod_small by lia. reflexivity.
Qed.

Lemma parseIPv4_loop_next k i a rest p :
  (a < 256)%nat → stops_decimal rest → (0 < i)%nat →
  parseIPv4_loop (S k) i ("." ++ octet a ++ rest) p
  = parseIPv4_loop k (S i) rest (<[i := Z.of_nat a]> p).
Proof.
  intros Ha Hrest Hi. destruct (dtoi_octet a rest Ha Hrest) as (Hd & Hz & Hlen).
  cbn [parseIPv4_loop]. rewrite append_String, append_Empty.
  cbn [String.length Nat.eqb]. apply Nat.ltb_lt in Hi. rewrite Hi.
  change (char_at_is (String "." (octet a ++ rest)) 0 ".") with true.
  cbn [sdrop]. rewrite Hd, Hz. cbn [negb orb].
  destruct (Z.ltb_spec 0xFF (Z.of_nat a)); [lia|].
  rewrite sdrop_append, Z.mod_small by lia. reflexivity.
Qed.

Lemma parseIPv4_dotted a b c d :
  (a < 256)%nat → (b < 256)%nat → (c < 256)%nat → (d < 256)%nat →
  parseIPv4 (dotted a b c d)
  = Some (IPv4 (Z.of_nat a) (Z.of_nat b) (Z.of_nat c) (Z.of_nat d)).
Proof.
  intros Ha Hb Hc Hd. unfold parseIPv4, dotted, IPv4len.
  rewrite <- (append_nil_r (octet d)).
  rewrite parseIPv4_loop_first by (auto using stops_decimal_dot).
  rewrite !parseIPv4_loop_next by (first [lia|apply stops_decimal_dot|exact I]).
  reflexivity.
Qed.

(** The canonical text of every IPv4 address is kept. [ParseIP] reads
    a.b.c.d back as the address with these four octets, [To4] returns
    them, and the filter keeps the text wherever it occurs. *)
Theorem X12_dotted_round_trip a b c d (l : list string)
  (Ha : (a < 256)%nat) (Hb : (b < 256)%nat) (Hc : (c < 256)%nat)
  (Hd : (d < 256)%nat) :
  ParseIP (dotted a b c d)
  = Some (IPv4 (Z.of_nat a) (Z.of_nat b) (Z.of_nat c) (Z.of_nat d)) ∧
  (ParseIP (dotted a b c d) ≫= To4)
  = Some [Z.of_nat a; Z.of_nat b; Z.of_nat c; Z.of_nat d] ∧
  (dotted a b c d ∈ getIp4Targets l ↔ dotted a b c d ∈ l).
Proof.
  pose proof (parseIPv4_dotted a b c d Ha Hb Hc Hd) as Hv4.
  assert (Hp : ParseIP (dotted a b c d)
               = Some (IPv4 (Z.of_nat a) (Z.of_nat b) (Z.of_nat c) (Z.of_nat d))).
  { rewrite ParseIP_dotted by (rewrite Hv4; eauto). exact Hv4. }
  split; [exact Hp|]. split; [rewrite Hp; reflexivity|].
  rewrite getIp4Targets_filter, list_elem_of_filter.
  unfold isIPv4. rewrite Hp, To4_IPv4. split; [tauto|].
  intros Hl. split; [|exact Hl]. apply bool_decide_eq_true. eauto.
Qed.

Lemma xtoi_loop_digit x s n i :
  (x < 10)%nat → n * 16 + Z.of_nat x < big →
  xtoi_loop (String (digitChar x) s) n i = xtoi_loop s (n * 16 + Z.of_nat x) (S i).
Proof.
  intros Hx Hbig. destruct (digitChar_facts x Hx) as (Hd & Hv & _).
  cbn [xtoi_loop]. rewrite Hd, Hv.
  destruct (Z.leb_spec big (n * 16 + Z.of_nat x)); [lia|reflexivity].
Qed.

Lemma xtoi_loop_dot rest n i :
  i ≠ 0%nat → xtoi_loop (String "." rest) n i = (n, i, true).
Proof.
  intros Hi%Nat.eqb_neq. cbn [xtoi_loop].
  change (between "0" "9" ".") with false.
  change (between "a" "f" ".") with false.
  change (between "A" "F" ".") with false.
  cbv iota. rewrite Hi. reflexivity.
Qed.

(** [xtoi] reads the digits of an octet followed by a dot as a hexadecimal
    number of at most three digits. *)
Lemma xtoi_octet a rest :
  (a < 256)%nat →
  ∃ v, xtoi (octet a ++ "." ++ rest) = (v, String.length (octet a), true) ∧
       0 <= v <= 0xFFFF.
Proof.
  intros Ha. unfold xtoi.
  destruct (octet_cases a Ha) as [[Hr ->]|[[Hr ->]|[Hr ->]]];
    rewrite !append_String, !append_Empty; cbn [String.length].
  - rewrite xtoi_loop_digit by (unfold big; lia).
    rewrite xtoi_loop_dot by lia. eexists. split; [reflexivity|lia].
  - assert (H1 : (a / 10 < 10)%nat) by (apply Nat.Div0.div_lt_upper_bound; lia).
    assert (H2 : (a mod 10 < 10)%nat) by (apply Nat.mod_upper_bound; lia).
    rewrite !xtoi_loop_digit by (unfold big; lia).
    rewrite xtoi_loop_dot by lia. eexists. split; [reflexivity|lia].
  - assert (H1 : (a / 100 < 10)%nat) by (apply Nat.Div0.div_lt_upper_bound; lia).
    assert (H2 : (a / 10 mod 10 < 10)%nat) by (apply Nat.mod_upper_bound; lia).
    assert (H3 : (a mod 10 < 10)%nat) by (apply Nat.mod_upper_bound; lia).
    rewrite !xtoi_loop_digit by (unfold big; lia).
    rewrite xtoi_loop_dot by lia. eexists. split; [reflexivity|lia].
Qed.

Lemma dotted_head a b c d :
  (a < 256)%nat →
  ∃ x r, dotted a b c d = String (digitChar x) r ∧ (x < 10)%nat.
Proof.
  intros Ha. unfold dotted.
  destruct (octet_cases a Ha) as [[Hr ->]|[[Hr ->]|[Hr ->]]];
    rewrite append_String; eexists _, _; (split; [reflexivity|]).
  - exact Hr.
  - apply Nat.Div0.div_lt_upper_bound; lia.
  - apply Nat.Div0.div_lt_upper_bound; lia.
Qed.

(** The round of the IPv6 loop that reads the group ffff before a text
    that goes on with a decimal digit. *)
Lemma parseIPv6_loop_ffff fuel x r ip :
  (x < 10)%nat →
  parseIPv6_loop (S fuel) 0 ("ffff:" ++ String (digitChar x) r) 0 ip
  = parseIPv6_loop fuel 2 (String (digitChar x) r) 0 (set_ (set_ ip 0 255) 1 255).
Proof.
  intros Hx. destruct (digitChar_facts x Hx) as (Hd & _).
  destruct (digit_not_sep _ Hd) as [_ Hcolon].
  cbn [parseIPv6_loop].
  change (negb (0 <? IPv6len)) with false. cbv iota.
  change (xtoi ("ffff:" ++ String (digitChar x) r)) with (65535, 4%nat, true).
  cbv iota beta.
  change (negb true || (65535 <? 65535)) with false. cbv iota.
  change (char_at_is ("ffff:" ++ String (digitChar x) r) 4 ".") with false.
  cbv iota.
  change (sdrop 4 ("ffff:" ++ String (digitChar x) r))
    with (String ":" (String (digitChar x) r)).
  cbn [String.length Nat.eqb sdrop].
  change (char_at_is (String ":" (String (digitChar x) r)) 0 ":") with true.
  cbn [negb orb].
  unfold char_at_is at 1. cbn [String.get].
  rewrite Hcolon. reflexivity.
Qed.

(** The round of the IPv6 loop that meets a trailing dotted-decimal part
    after the ellipsis. *)
Lemma parseIPv6_loop_trailing fuel a b c d ip :
  (a < 256)%nat → (b < 256)%nat → (c < 256)%nat → (d < 256)%nat →
  parseIPv6_loop (S fuel) 2 (dotted a b c d) 0 ip
  = Some (V6 6 EmptyString 0
            (set_ (set_ (set_ (set_ ip 2 (Z.of_nat a)) 3 (Z.of_nat b))
                     4 (Z.of_nat c)) 5 (Z.of_nat d))).
Proof.
  intros Ha Hb Hc Hd.
  pose proof (parseIPv4_dotted a b c d Ha Hb Hc Hd) as Hv4.
  assert (Hdot : char_at_is (dotted a b c d) (String.length (octet a)) "." = true).
  { rewrite char_at_is_sdrop. unfold dotted. rewrite sdrop_append. reflexivity. }
  destruct (xtoi_octet a (octet b ++ "." ++ octet c ++ "." ++ octet d)%string Ha)
    as (v & Hx & Hv).
  fold (dotted a b c d) in Hx.
  cbn [parseIPv6_loop].
  change (negb (2 <? IPv6len)) with false. cbv iota.
  rewrite Hx. cbv iota beta. cbn [negb orb].
  destruct (Z.ltb_spec 0xFFFF v); [lia|].
  rewrite Hdot, Hv4. reflexivity.
Qed.

Lemma parseIPv6_mapped a b c d :
  (a < 256)%nat → (b < 256)%nat → (c < 256)%nat → (d < 256)%nat →
  parseIPv6 (mapped a b c d)
  = Some (IPv4 (Z.of_nat a) (Z.of_nat b) (Z.of_nat c) (Z.of_nat d)).
Proof.
  intros Ha Hb Hc Hd.
  pose proof (parseIPv6_loop_trailing 6 a b c d) as Htrail.
  destruct (dotted_head a b c d Ha) as (x & r & Hhead & Hx).
  unfold parseIPv6, mapped.
  change (char_at_is ("::ffff:" ++ dotted a b c d) 0 ":") with true.
  change (char_at_is ("::ffff:" ++ dotted a b c d) 1 ":") with true.
  cbn [andb].
  change (sdrop 2 ("::ffff:" ++ dotted a b c d)) with ("ffff:" ++ dotted a b c d)%string.
  change (String.length ("ffff:" ++ dotted a b c d) =? 0)%nat with false.
  cbv iota.
  rewrite Hhead, parseIPv6_loop_ffff by exact Hx. rewrite <- Hhead.
  rewrite Htrail by assumption. reflexivity.
Qed.

(** The IPv6 text ::ffff:a.b.c.d of every IPv4-mapped address is kept.
    The dotted-decimal parser rejects it and the IPv6 parser accepts it,
    [ParseIP] reads it as the same sixteen bytes as a.b.c.d, and the
    filter keeps it wherever it occurs. *)
Theorem X13_mapped_literals_kept a b c d (l : list string)
  (Ha : (a < 256)%nat) (Hb : (b < 256)%nat) (Hc : (c < 256)%nat)
  (Hd : (d < 256)%nat) :
  ¬ parsesAsIPv4Literal (mapped a b c d) ∧
  parsesAsIPv6Literal (mapped a b c d) ∧
  ParseIP (mapped a b c d) = ParseIP (dotted a b c d) ∧
  (mapped a b c d ∈ getIp4Targets l ↔ mapped a b c d ∈ l).
Proof.
  pose proof (parseIPv6_mapped a b c d Ha Hb Hc Hd) as Hv6.
  assert (Hsep : firstSep (mapped a b c d) = Some Colon) by reflexivity.
  assert (Hp : ParseIP (mapped a b c d)
               = Some (IPv4 (Z.of_nat a) (Z.of_nat b) (Z.of_nat c) (Z.of_nat d))).
  { rewrite ParseIP_firstSep, Hsep. exact Hv6. }
  split.
  { intros Hv4%parseIPv4_firstSep. rewrite Hsep in Hv4. discriminate. }
  split; [split; [exact Hsep|rewrite Hv6; eauto]|].
  split.
  { rewrite Hp. symmetry.
    rewrite ParseIP_dotted; rewrite parseIPv4_dotted by assumption; eauto. }
  rewrite getIp4Targets_filter, list_elem_of_filter.
  unfold isIPv4. rewrite Hp, To4_IPv4. split; [tauto|].
  intros Hl. split; [|exact Hl]. apply bool_decide_eq_true. eauto.
Qed.

Lemma dtoi_loop_octet a rest i :
  (a < 256)%nat → stops_decimal rest →
  dtoi_loop (octet a ++ rest) 0 (S i)
  = (Z.of_nat a, (S i + String.length (octet a))%nat, true).
Proof.
  intros Ha Hrest. unfold big.
  destruct (octet_cases a Ha) as [[Hr ->]|[[Hr ->]|[Hr ->]]];
    rewrite !append_String, append_Empty; cbn [String.length].
  - rewrite dtoi_loop_digit by (unfold big; lia).
    rewrite dtoi_loop_stop by first [assumption|lia]. f_equal; f_equal; lia.
  - assert (H1 : (a / 10 < 10)%nat) by (apply Nat.Div0.div_lt_upper_bound; lia).
    assert (H2 : (a mod 10 < 10)%nat) by (apply Nat.mod_upper_bound; lia).
    pose proof (Nat.div_mod_eq a 10) as Hdm.
    rewrite !dtoi_loop_digit by (unfold big; lia).
    rewrite dtoi_loop_stop by first [assumption|lia]. f_equal; f_equal; lia.
  - assert (H1 : (a / 100 < 10)%nat) by (apply Nat.Div0.div_lt_upper_bound; lia).
    assert (H2 : (a / 10 mod 10 < 10)%nat) by (apply Nat.mod_upper_bound; lia).
    assert (H3 : (a mod 10 < 10)%nat) by (apply Nat.mod_upper_bound; lia).
    pose proof (Nat.div_mod_eq a 10) as Hdm.
    pose proof (Nat.div_mod_eq (a / 10) 10) as Hdm'.
    assert (Hq : (a / 10 / 10 = a / 100)%nat)
      by (rewrite Nat.Div0.div_div; reflexivity).
    rewrite !dtoi_loop_digit by (unfold big; lia).
    rewrite dtoi_loop_stop by first [assumption|lia]. f_equal; f_equal; lia.
Qed.

(** A round of the dotted-decimal loop on an octet with a leading zero
    fails, at the first octet and after a dot. *)
Lemma parseIPv4_loop_zero_led k i a rest p :
  (a < 256)%nat → stops_decimal rest →
  parseIPv4_loop (S k) i
    ((if (0 <? i)%nat then "." else "") ++ zero_led a ++ rest) p = None.
Proof.
  intros Ha Hrest. unfold zero_led.
  assert (Hbody : ∀ s1, s1 = String "0" (octet a ++ rest) →
    (let '(n, c, ok) := dtoi s1 in
     if negb ok || (0xFF <? n) then None
     else if (1 <? c)%nat && char_at_is s1 0 "0" then None
     else parseIPv4_loop k (S i) (sdrop c s1) (<[i := n mod 256]> p)) = None).
  { intros s1 ->. unfold dtoi.
    change "0"%char with (digitChar 0).
    rewrite dtoi_loop_digit by (unfold big; lia).
    change (0 * 10 + Z.of_nat 0) with 0.
    rewrite dtoi_loop_octet by assumption. cbn [negb orb].
    destruct (Z.ltb_spec 0xFF (Z.of_nat a)); [reflexivity|].
    assert (Hlen : (1 <? 1 + String.length (octet a))%nat = true).
    { apply Nat.ltb_lt. destruct (octet_cases a Ha) as [[_ ->]|[[_ ->]|[_ ->]]];
        simpl; lia. }
    rewrite Hlen. reflexivity. }
  cbn [parseIPv4_loop]. destruct (0 <? i)%nat.
  - rewrite !append_String, !append_Empty. cbn [String.length Nat.eqb].
    change (char_at_is (String "." (String "0" (octet a ++ rest))) 0 ".") with true.
    cbn [sdrop]. apply Hbody. reflexivity.
  - rewrite !append_String, !append_Empty. cbn [String.length Nat.eqb].
    apply Hbody. reflexivity.
Qed.

Lemma firstSep_octet a rest :
  (a < 256)%nat → firstSep (octet a ++ "." ++ rest) = Some Dot.
Proof.
  intros Ha.
  assert (Hd : ∀ x s, (x < 10)%nat → firstSep (String (digitChar x) s) = firstSep s).
  { intros x s Hx. destruct (digitChar_facts x Hx) as (Hd & _).
    destruct (digit_not_sep _ Hd) as [H1 H2]. cbn [firstSep].
    rewrite H1, H2. reflexivity. }
  destruct (octet_cases a Ha) as [[Hr ->]|[[Hr ->]|[Hr ->]]];
    rewrite !append_String, !append_Empty, !Hd;
    try reflexivity; try lia;
    first [apply Nat.Div0.div_lt_upper_bound; lia|apply Nat.mod_upper_bound; lia].
Qed.

Lemma not_kept_when_rejected t (l : list string) :
  firstSep t = Some Dot → parseIPv4 t = None →
  isIPv4 t = false ∧ t ∉ getIp4Targets l.
Proof.
  intros Hsep Hv4.
  assert (Hno : isIPv4 t = false).
  { unfold isIPv4. rewrite ParseIP_firstSep, Hsep, Hv4. reflexivity. }
  split; [exact Hno|]. rewrite getIp4Targets_filter.
  intros [Hyes _]%list_elem_of_filter. congruence.
Qed.

(** Octets with a leading zero are not read as octal or decimal: a dotted
    text in which one octet is written with a leading zero is dropped,
    whichever of the four octets it is. *)
Theorem X14_leading_zero_dropped a b c d (l : list string)
  (Ha : (a < 256)%nat) (Hb : (b < 256)%nat) (Hc : (c < 256)%nat)
  (Hd : (d < 256)%nat) :
  (join4 (zero_led a) (octet b) (octet c) (octet d) ∉ getIp4Targets l) ∧
  (join4 (octet a) (zero_led b) (octet c) (octet d) ∉ getIp4Targets l) ∧
  (join4 (octet a) (octet b) (zero_led c) (octet d) ∉ getIp4Targets l) ∧
  (join4 (octet a) (octet b) (octet c) (zero_led d) ∉ getIp4Targets l).
Proof.
  assert (Hz := fun k i x rest p => parseIPv4_loop_zero_led k i x rest p).
  unfold join4, parseIPv4. repeat split.
  - apply not_kept_when_rejected.
    + unfold zero_led. rewrite !append_String, !append_Empty. cbn [firstSep].
      change "0"%char with (digitChar 0).
      change (Ascii.eqb (digitChar 0) ".") with false.
      change (Ascii.eqb (digitChar 0) ":") with false. cbv iota.
      apply firstSep_octet, Ha.
    + unfold parseIPv4, IPv4len.
      rewrite <- (append_Empty (zero_led a ++ _)).
      rewrite (Hz 3%nat 0%nat) by (first [assumption|apply stops_decimal_dot]).
      reflexivity.
  - apply not_kept_when_rejected; [apply firstSep_octet, Ha|].
    unfold parseIPv4, IPv4len.
    rewrite parseIPv4_loop_first by (first [assumption|apply stops_decimal_dot]).
    rewrite (Hz 2%nat 1%nat) by (first [assumption|apply stops_decimal_dot]).
    reflexivity.
  - apply not_kept_when_rejected; [apply firstSep_octet, Ha|].
    unfold parseIPv4, IPv4len.
    rewrite parseIPv4_loop_first by (first [assumption|apply stops_decimal_dot]).
    rewrite parseIPv4_loop_next by (first [assumption|apply stops_decimal_dot|lia]).
    rewrite (Hz 1%nat 2%nat) by (first [assumption|apply stops_decimal_dot]).
    reflexivity.
  - apply not_kept_when_rejected; [apply firstSep_octet, Ha|].
    unfold parseIPv4, IPv4len.
    rewrite parseIPv4_loop_first by (first [assumption|apply stops_decimal_dot]).
    rewrite !parseIPv4_loop_next by (first [assumption|apply stops_decimal_dot|lia]).
    rewrite <- (append_nil_r (zero_led d)).
    rewrite (Hz 0%nat 3%nat) by (first [assumption|exact I]).
    reflexivity.
Qed.

End TextFacts.

Section MoreInstances.
Import Net endpoint source props fixtures more.
Local Open Scope string_scope.

Lemma X2_witness :
  Endpoints (NewSuppressIPv6Source failing) tt store
  = Some (([1]%positive, Some "node cache not synced"), store) ∧
  Endpoints failing tt store
  = Some (([1]%positive, Some "node cache not synced"), store).
Proof.
  assert (Hrun : Endpoints (NewSuppressIPv6Source failing) tt store
                 = Some (([1]%positive, Some "node cache not synced"), store))
    by reflexivity.
  split; [exact Hrun|]. exact (X2_errors_are_upstream _ _ _ _ _ _ Hrun).
Defined.

Lemma X3_witness :
  Endpoints v4Upstream tt v4Store
  = Some (([1]%positive, None), mkState (heap v4Store) [tt]) ∧
  ∃ results st2,
    Endpoints (NewSuppressIPv6Source v4Upstream) tt v4Store
    = Some ((results, None), st2) ∧
    deref_all st2 results = Some [ep "a.example.org" ["1.2.3.4"; "10.0.0.1"]] ∧
    length results = 1%nat.
Proof.
  split; [reflexivity|].
  apply (X3_IPv4_only_passes_through v4Upstream tt v4Store [1]%positive
           (mkState (heap v4Store) [tt]) [ep "a.example.org" ["1.2.3.4"; "10.0.0.1"]]);
    [reflexivity|reflexivity|].
  repeat constructor; discriminate.
Defined.

Lemma X4_witness :
  Endpoints v6Upstream tt v4Store
  = Some (([2]%positive, None), mkState (heap v4Store) [tt]) ∧
  Endpoints (NewSuppressIPv6Source v6Upstream) tt v4Store
  = Some (([], None), mkState (heap v4Store) [tt]).
Proof.
  split; [reflexivity|].
  apply (X4_nothing_survives v6Upstream tt v4Store [2]%positive
           (mkState (heap v4Store) [tt]) [ep "b.example.org" ["::1"]]);
    [reflexivity|reflexivity|].
  repeat constructor.
Defined.

Lemma X5_witness :
  Endpoints upstream tt store = Some (([1; 2; 3]%positive, None), store) ∧
  ∃ results st2,
    Endpoints (NewSuppressIPv6Source upstream) tt store
    = Some ((results, None), st2) ∧
    dom (heap st2) = dom (heap store) ∪ list_to_set results ∧
    size (heap st2) = (size (heap store) + length results)%nat ∧
    length results
    = length (filter (fun e => getIp4Targets (Targets e) ≠ []) [epA; epB; epC]).
Proof.
  split; [reflexivity|].
  apply (X5_store_footprint upstream tt store [1; 2; 3]%positive store);
    reflexivity.
Defined.

Lemma X7_witness :
  ∃ r after,
    Endpoints (decorated 3 (countingSource (Handler := nat) (Err := string)
                              [1; 2]%positive None)) tt v4Store
    = Some (r, after) ∧
    world after = [tt].
Proof.
  apply (X7_base_called_once (Handler := nat) (Err := string) 3
           [1; 2]%positive None tt v4Store).
  intros _. eexists. reflexivity.
Defined.

Lemma X9_witness :
  heap v4Store !! 7%positive = None ∧
  Endpoints (NewSuppressIPv6Source nilUpstream) tt v4Store = None.
Proof.
  split; [reflexivity|].
  destruct (X9_panics nilUpstream tt v4Store) as [_ Hnil].
  apply (Hnil 7%positive [1]%positive (mkState (heap v4Store) [tt])); reflexivity.
Defined.


Lemma X11_witness :
  "1.2.3.4" ∈ getIp4Targets
                ["node1.example.org"; "cafe"; "1.2.3.4"; "1.2.3.4:80"; "1.2.3.4/32"] ∧
  "1.2.3.4" ∈ ["node1.example.org"; "cafe"; "1.2.3.4"; "1.2.3.4:80"; "1.2.3.4/32"] ∧
  firstSep "1.2.3.4" ≠ None ∧
  string_forall isAddressChar "1.2.3.4" = true ∧
  (firstSep "1.2.3.4" = Some Dot → string_forall isDigitOrDot "1.2.3.4" = true) ∧
  (string_forall notColon "1.2.3.4" = true →
   firstSep "1.2.3.4" = Some Dot ∧ string_forall isDigitOrDot "1.2.3.4" = true).
Proof.
  assert (Hin : "1.2.3.4" ∈ getIp4Targets
                  ["node1.example.org"; "cafe"; "1.2.3.4"; "1.2.3.4:80"; "1.2.3.4/32"])
    by (vm_compute; apply list_elem_of_here).
  split; [exact Hin|]. exact (X11_kept_targets_charset _ _ Hin).
Defined.

(** Host names, a name of hexadecimal letters, an address with a port and
    one with a prefix length are dropped for the reasons of the property
    above. *)
Example dropped_entries :
  getIp4Targets ["node1.example.org"; "cafe"; "1.2.3.4"; "1.2.3.4:80"; "1.2.3.4/32"]
  = ["1.2.3.4"] ∧
  string_forall isAddressChar "node1.example.org" = false ∧
  firstSep "cafe" = None ∧
  (firstSep "1.2.3.4:80" = Some Dot ∧ string_forall isDigitOrDot "1.2.3.4:80" = false) ∧
  string_forall isAddressChar "1.2.3.4/32" = false.
Proof. vm_compute. repeat split. Qed.

Lemma X12_witness :
  dotted 192 168 0 1 = "192.168.0.1" ∧
  ParseIP (dotted 192 168 0 1) = Some (IPv4 192 168 0 1) ∧
  (ParseIP (dotted 192 168 0 1) ≫= To4) = Some [192; 168; 0; 1]%Z ∧
  (dotted 192 168 0 1 ∈ getIp4Targets ["::1"; "192.168.0.1"]
   ↔ dotted 192 168 0 1 ∈ ["::1"; "192.168.0.1"]).
Proof.
  split; [reflexivity|].
  apply (X12_dotted_round_trip 192 168 0 1 ["::1"; "192.168.0.1"]); lia.
Defined.

Lemma X13_witness :
  mapped 192 168 0 1 = "::ffff:192.168.0.1" ∧
  ¬ parsesAsIPv4Literal (mapped 192 168 0 1) ∧
  parsesAsIPv6Literal (mapped 192 168 0 1) ∧
  ParseIP (mapped 192 168 0 1) = ParseIP (dotted 192 168 0 1) ∧
  (mapped 192 168 0 1 ∈ getIp4Targets ["::ffff:192.168.0.1"; "::1"]
   ↔ mapped 192 168 0 1 ∈ ["::ffff:192.168.0.1"; "::1"]).
Proof.
  split; [reflexivity|].
  apply (X13_mapped_literals_kept 192 168 0 1 ["::ffff:192.168.0.1"; "::1"]); lia.
Defined.

Lemma X14_witness :
  join4 (zero_led 10) (octet 0) (octet 0) (octet 1) = "010.0.0.1" ∧
  ("010.0.0.1" ∉ getIp4Targets ["010.0.0.1"; "10.0.0.1"]) ∧
  "10.0.0.1" ∈ getIp4Targets ["010.0.0.1"; "10.0.0.1"].
Proof.
  split; [reflexivity|]. split.
  - destruct (X14_leading_zero_dropped 10 0 0 1 ["010.0.0.1"; "10.0.0.1"])
      as (Hfirst & _); [lia|lia|lia|lia|exact Hfirst].
  - vm_compute. apply list_elem_of_here.
Defined.

End MoreInstances.
